(** * NAV analyzer: a shallow embedding of [core/nav_analyzer.py] and [main.py]

    The program reads a roster of securities from a CSV file, fetches the
    NAV history of each security over HTTP (retrying failed attempts),
    builds a time series, computes six statistics, emits one HTML report per
    security and finally writes one consolidated CSV summary.

    The embedding keeps the control flow of the Python code: exceptions are
    an explicit [result], side effects are recorded in a chronological
    [trace] of events that is threaded through the calls, and the libraries
    the code calls into (pandas, requests, quantstats, the clock) are the
    fields of the class [External]. *)

From Stdlib Require Import ZArith List String Lia Sorted.
From Stdlib Require Import Floats.
From stdpp Require Import base option list gmap strings pretty.
Import ListNotations.

Set Warnings "-register-all,-notation-for-abbreviation,-inexact-float".

Local Open Scope Z_scope.
Local Open Scope string_scope.
Local Open Scope list_scope.

(** ** Exceptions and results *)

(** The exceptions that can travel through the analyzer.  All of them are
    subclasses of Python's [Exception], hence are caught by
    [except Exception] and retried by tenacity's default retry predicate. *)
Inductive exn : Type :=
| OSError (msg : string)
| ParserError (msg : string)
| RequestException (kind : string)
| HTTPError (status_code : Z)
| JSONDecodeError
| AttributeError (attr : string)
| ValueError (msg : string)
| KeyError (key : string)
| OutOfBoundsDatetime (ts : Z)
| LibraryError (origin msg : string)
| RetryError (last_attempt : exn).

Inductive result (A : Type) : Type :=
| Ok (a : A)
| Raise (e : exn).
Arguments Ok {A} a.
Arguments Raise {A} e.

Definition is_ok {A} (r : result A) : bool :=
  match r with Ok _ => true | Raise _ => false end.

Definition ok_value {A} (r : result A) : option A :=
  match r with Ok a => Some a | Raise _ => None end.

Definition rbind {A B} (r : result A) (k : A -> result B) : result B :=
  match r with Ok a => k a | Raise e => Raise e end.

(** ** Values *)

(** A JSON number as Python decodes it: an [int] or a [float]. *)
Inductive number : Type :=
| NInt (z : Z)
| NFloat (f : float).

(** A decoded JSON document.  The fields of an object are listed in
    insertion order; their keys are distinct, as in a Python [dict]. *)
Inductive json : Type :=
| JNull
| JBool (b : bool)
| JNum (n : number)
| JStr (s : string)
| JArr (items : list json)
| JObj (fields : list (string * json)).

(** One cell of the roster, or one value of a result row. *)
Inductive cell : Type :=
| CStr (s : string)
| CInt (z : Z)
| CFloat (f : float)
| CBool (b : bool).

(** A roster row ([pandas.Series] labelled by column) and a result row
    ([dict]) both map column names to values.  Cells are taken as
    [iterrows] hands them to the loop. *)
Notation Row := (gmap string cell).

(** The index of a NAV series: a calendar instant, kept as the number of
    seconds since the epoch that it was derived from. *)
Record datetime : Type := Datetime { epoch_seconds : Z }.

(** A [pandas.Series]: the entries in positional order, each an index
    label with its value.  Values are kept as they were decoded; the dtype
    pandas picks for the column is not part of the model. *)
Notation Series := (list (datetime * number)).

(** ** The analyzer object *)

Record NAVAnalyzer : Type := mkNAVAnalyzer {
  csv_path : string;
  csrf_token : string;
  headers : list (string * string);
  report_dir : string
}.

(** ** Events *)

Inductive log_record : Type :=
| LoadedRecords (n : nat) (path : string)
| ErrorLoadingCsv (e : exn)
| ProcessingIsin (isin : string)
| ErrorProcessingIsin (isin : string) (e : exn)
| AnalysisCompleted.

Inductive event : Type :=
| EvMkdir (dir : string)
| EvReadCsv (path : string)
| EvLogInfo (r : log_record)
| EvLogError (r : log_record)
| EvGet (url : string) (hdrs : list (string * string))
| EvSleep
| EvHtmlReport (series : Series) (title output : string)
| EvToCsv (path : string) (rows : list Row).

Notation trace := (list event).

Inductive transport : Type :=
| Failed (kind : string)
| Responded (status_code : Z) (body : option json).

(** ** External collaborators

    What the libraries answer is not fixed by this code base; it is taken
    as a parameter.  An answer that depends on the outside world may depend
    on everything that happened so far (the trace). *)
Class External : Type := {
  (** [pandas.read_csv]. *)
  read_csv : string -> result (list Row);
  (** [requests.get]: a transport failure, or a response with its status
      code and its body decoded by [response.json()] ([None] when the body
      is not JSON). *)
  requests_get : trace -> string -> list (string * string) -> transport;
  (** Whether pandas can represent the instant [ts] seconds after the
      epoch as a timestamp. *)
  datetime_in_bounds : Z -> bool;
  (** What [process_nav_data] does on a payload that is not a list of
      [[int, number]] pairs. *)
  pandas_other_shape : json -> result Series;
  (** [quantstats.stats]. *)
  qs_cagr : Series -> result float;
  qs_volatility : Series -> result float;
  qs_sharpe : Series -> float -> result float;
  qs_sortino : Series -> float -> result float;
  qs_max_drawdown : Series -> result float;
  qs_value_at_risk : Series -> result float;
  (** [quantstats.reports.html]: [None] when the report is written. *)
  qs_reports_html : trace -> Series -> string -> string -> option exn;
  (** [datetime.now().strftime("%Y-%m-%d")]. *)
  today : trace -> string;
  (** [str] of a float. *)
  float_repr : float -> string
}.

(** ** The effect monad: exceptions over a trace *)

Definition M (A : Type) : Type := trace -> result A * trace.

Definition ret {A} (a : A) : M A := fun t => (Ok a, t).
Definition raise {A} (e : exn) : M A := fun t => (Raise e, t).
Definition bind {A B} (m : M A) (k : A -> M B) : M B :=
  fun t => match m t with
           | (Ok a, t1) => k a t1
           | (Raise e, t1) => (Raise e, t1)
           end.
Definition lift {A} (r : result A) : M A := fun t => (r, t).
Definition emit (e : event) : M unit := fun t => (Ok tt, t ++ [e]).
Definition history : M trace := fun t => (Ok t, t).

Declare Scope analyzer_scope.
Delimit Scope analyzer_scope with analyzer.
Notation "x <- m ;; k" := (bind m (fun x => k))
  (at level 100, m at next level, right associativity) : analyzer_scope.
Notation "m ;;; k" := (bind m (fun _ => k))
  (at level 100, right associativity) : analyzer_scope.
Local Open Scope analyzer_scope.

(** ** Dictionary and row access *)

(** [d.get(key)] on a decoded JSON object. *)
Fixpoint dict_get (fields : list (string * json)) (key : string) : option json :=
  match fields with
  | [] => None
  | (k, v) :: rest => if String.eqb k key then Some v else dict_get rest key
  end.

(** [key in d]. *)
Definition dict_contains (fields : list (string * json)) (key : string) : bool :=
  match dict_get fields key with Some _ => true | None => false end.

(** [d[key]] on a decoded JSON document that passed validation. *)
Definition json_getitem (d : json) (key : string) : result json :=
  match d with
  | JObj fields =>
      match dict_get fields key with
      | Some v => Ok v
      | None => Raise (KeyError key)
      end
  | _ => Raise (LibraryError "builtins" "TypeError")
  end.

(** [x == "success"] for [x] the result of [d.get("status")]. *)
Definition equals_success (x : option json) : bool :=
  match x with
  | Some (JStr s) => String.eqb s "success"
  | _ => false
  end.

(** [row[column]] on a roster row. *)
Definition row_getitem (row : Row) (column : string) : result cell :=
  match row !! column with
  | Some c => Ok c
  | None => Raise (KeyError column)
  end.

(** [response.raise_for_status()] raises for the 4xx and 5xx codes. *)
Definition is_error_status (status_code : Z) : bool :=
  ((400 <=? status_code)%Z && (status_code <? 600)%Z)%bool.

(** [stop_after_attempt(n)]: stop once the attempt number reaches [n]. *)
Definition stop_after_attempt (max_attempt_number attempt_number : nat) : bool :=
  (max_attempt_number <=? attempt_number)%nat.

Definition max_attempts : nat := 5.

(** The six metric names of [generate_statistics]. *)
Definition metric_names : list string :=
  ["cagr"; "volatility"; "sharpe"; "sortino"; "max_drawdown"; "value_at_risk"].

(** The risk-free rate passed to sharpe and sortino. *)
Definition risk_free_rate : float := 0.03%float.

(** [NAVAnalyzer.__init__]: the object, and the reports directory being
    created as a side effect. *)
Definition make_headers (token : string) : list (string * string) :=
  [("sec-ch-ua-platform", "Linux");
   ("X-CSRFToken", token);
   ("Referer", "https://coin.zerodha.com/");
   ("User-Agent", "Mozilla/5.0 (X11; Linux x86_64) AppleWebKit/537.36 (KHTML, like Gecko) Chrome/132.0.0.0 Safari/537.36");
   ("Accept", "application/json, text/plain, */*");
   ("sec-ch-ua", String.concat (String (Ascii.ascii_of_nat 34) "")
                   [""; "Not A(Brand"; ";v="; "8"; ", "; "Chromium";
                    ";v="; "132"; ", "; "Brave"; ";v="; "132"; ""]);
   ("sec-ch-ua-mobile", "?0")].

Definition init (path token : string) : M NAVAnalyzer :=
  emit (EvMkdir "reports") ;;;
  ret {| csv_path := path; csrf_token := token;
         headers := make_headers token; report_dir := "reports" |}.

(** ** The methods of [NAVAnalyzer] *)

Section Analyzer.
Context `{E : External}.

(** [str(x)] as the f-strings of the code apply it to a roster cell. *)
Definition py_str (c : cell) : string :=
  match c with
  | CStr s => s
  | CInt z => pretty z
  | CFloat f => float_repr f
  | CBool b => if b then "True" else "False"
  end.

(** [load_isin_data]: read the roster; a failure is logged and raised
    again. *)
Definition load_isin_data (a : NAVAnalyzer) : M (list Row) :=
  emit (EvReadCsv (csv_path a)) ;;;
  match read_csv (csv_path a) with
  | Ok df => emit (EvLogInfo (LoadedRecords (length df) (csv_path a))) ;;; ret df
  | Raise e => emit (EvLogError (ErrorLoadingCsv e)) ;;; raise e
  end.

Definition nav_url (isin : cell) : string :=
  "https://staticassets.zerodha.com/coin/historical-nav/" +:+ py_str isin +:+ ".json".

(** What one attempt does with the answer of [requests.get]: the lines of
    [fetch_nav_data] after the call. *)
Definition validate_response (isin : cell) (answer : transport) : result json :=
  match answer with
  | Failed kind => Raise (RequestException kind)
  | Responded status_code body =>
      if is_error_status status_code then Raise (HTTPError status_code)
      else match body with
           | None => Raise JSONDecodeError
           | Some (JObj fields) =>
               if (negb (equals_success (dict_get fields "status"))
                   || negb (dict_contains fields "data"))%bool
               then Raise (ValueError ("Invalid response format for ISIN " +:+ py_str isin))
               else Ok (JObj fields)
           | Some _ => Raise (AttributeError "get")
           end
  end.

(** The body of [fetch_nav_data], without its decorator: one attempt. *)
Definition fetch_nav_data_body (a : NAVAnalyzer) (isin : cell) : M json :=
  fun t =>
    let url := nav_url isin in
    (validate_response isin (requests_get t url (headers a)),
     t ++ [EvGet url (headers a)]).

(** The loop of [@retry(stop=stop_after_attempt(5), wait=wait_random(1, 2))]
    around a function [fn], from attempt [attempt_number] on.  With
    tenacity's defaults every raised [Exception] is retried, and when the
    stop condition holds a [RetryError] that wraps the last attempt is
    raised ([reraise] is off).  The length of the random wait is not
    recorded.  [fuel] bounds the number of iterations. *)
Fixpoint retrying {A} (fuel : nat) (fn : M A) (attempt_number : nat) (t : trace)
  : option (result A * trace) :=
  match fuel with
  | O => None
  | S fuel' =>
      match fn t with
      | (Ok a, t1) => Some (Ok a, t1)
      | (Raise e, t1) =>
          if stop_after_attempt max_attempts attempt_number
          then Some (Raise (RetryError e), t1)
          else retrying fuel' fn (S attempt_number) (t1 ++ [EvSleep])
      end
  end.

(** [fetch_nav_data] as decorated.  Five iterations always suffice (see
    [retrying_enough_fuel]), so the default is never taken. *)
Definition fetch_nav_data (a : NAVAnalyzer) (isin : cell) : M json :=
  fun t =>
    match retrying max_attempts (fetch_nav_data_body a isin) 1 t with
    | Some r => r
    | None => (Raise (LibraryError "tenacity" "retry loop did not finish"), t)
    end.

(** [pd.to_datetime(..., unit="s")] on one value and on a column. *)
Definition to_datetime (ts : Z) : result datetime :=
  if datetime_in_bounds ts then Ok (Datetime ts) else Raise (OutOfBoundsDatetime ts).

Fixpoint to_datetime_column (column : list Z) : result (list datetime) :=
  match column with
  | [] => Ok []
  | ts :: rest =>
      rbind (to_datetime ts) (fun d =>
      rbind (to_datetime_column rest) (fun ds => Ok (d :: ds)))
  end.

(** [process_nav_data] on a list of [[timestamp, nav]] pairs: the frame
    has one line per pair, the dates are derived line by line, and the
    series pairs the nav column with the date column positionally. *)
Definition process_nav_data (nav_data : list (Z * number)) : result Series :=
  let timestamp := map fst nav_data in
  let nav := map snd nav_data in
  rbind (to_datetime_column timestamp) (fun date => Ok (zip date nav)).

(** Reading a decoded JSON value as a list of [[int, number]] pairs. *)
Definition as_pair (line : json) : option (Z * number) :=
  match line with
  | JArr [JNum (NInt ts); JNum v] => Some (ts, v)
  | _ => None
  end.

Definition as_pairs (data : json) : option (list (Z * number)) :=
  match data with
  | JArr lines => mapM as_pair lines
  | _ => None
  end.

(** [process_nav_data] as the orchestrator calls it, on whatever the
    payload holds under ["data"]. *)
Definition process_nav_json (data : json) : result Series :=
  match as_pairs data with
  | Some nav_data => process_nav_data nav_data
  | None => pandas_other_shape data
  end.

(** [generate_statistics]: the six entries of the dict literal are
    evaluated in order; the first exception leaves the function. *)
Definition generate_statistics (nav_series : Series) : result Row :=
  rbind (qs_cagr nav_series) (fun cagr =>
  rbind (qs_volatility nav_series) (fun volatility =>
  rbind (qs_sharpe nav_series risk_free_rate) (fun sharpe =>
  rbind (qs_sortino nav_series risk_free_rate) (fun sortino =>
  rbind (qs_max_drawdown nav_series) (fun max_drawdown =>
  rbind (qs_value_at_risk nav_series) (fun value_at_risk =>
  Ok (list_to_map
        [("cagr", CFloat cagr);
         ("volatility", CFloat volatility);
         ("sharpe", CFloat sharpe);
         ("sortino", CFloat sortino);
         ("max_drawdown", CFloat max_drawdown);
         ("value_at_risk", CFloat value_at_risk)]))))))).

(** [generate_html_report]: the title needs the [security_name] column;
    the call to [qs.reports.html] is recorded whether or not it raises. *)
Definition generate_html_report (a : NAVAnalyzer) (nav_series : Series)
    (security_info : Row) (isin : cell) : M unit :=
  let report_path := report_dir a +:+ "/" +:+ py_str isin +:+ "_report.html" in
  name <- lift (row_getitem security_info "security_name") ;;
  let title := py_str name +:+ " Analysis" in
  fun t =>
    (match qs_reports_html t nav_series title report_path with
     | None => Ok tt
     | Some e => Raise e
     end,
     t ++ [EvHtmlReport nav_series title report_path]).

(** [d.update(other)]: the entries of [other] win. *)
Definition dict_update (d other : Row) : Row := other ∪ d.

(** The [try] block of the loop of [analyze_securities], for one row. *)
Definition process_row (a : NAVAnalyzer) (row : Row) : M Row :=
  isin <- lift (row_getitem row "isin") ;;
  emit (EvLogInfo (ProcessingIsin (py_str isin))) ;;;
  nav_data <- fetch_nav_data a isin ;;
  data <- lift (json_getitem nav_data "data") ;;
  nav_series <- lift (process_nav_json data) ;;
  stats <- lift (generate_statistics nav_series) ;;
  generate_html_report a nav_series row isin ;;;
  ret (dict_update row stats).

(** The [except Exception as e] handler: it formats [row['isin']] again,
    which raises when the roster has no such column. *)
Definition handle_failure (row : Row) (e : exn) : M unit :=
  isin <- lift (row_getitem row "isin") ;;
  emit (EvLogError (ErrorProcessingIsin (py_str isin) e)).

(** The loop over [df.iterrows()], with [results] the list built so far. *)
Fixpoint process_rows (a : NAVAnalyzer) (rows : list Row) (results : list Row)
  : M (list Row) :=
  match rows with
  | [] => ret results
  | row :: rest =>
      fun t =>
        match process_row a row t with
        | (Ok result_row, t1) => process_rows a rest (results ++ [result_row]) t1
        | (Raise e, t1) => (handle_failure row e ;;; process_rows a rest results) t1
        end
  end.

(** [analyze_securities]. *)
Definition analyze_securities (a : NAVAnalyzer) : M unit :=
  df <- load_isin_data a ;;
  results <- process_rows a df [] ;;
  t <- history ;;
  let report_date := today t in
  emit (EvToCsv (report_dir a +:+ "/" +:+ report_date +:+ "_report.csv") results) ;;;
  emit (EvLogInfo AnalysisCompleted).

(** [main], after the command line has been parsed. *)
Definition main (path token : string) : M unit :=
  a <- init path token ;;
  analyze_securities a.

End Analyzer.

(** ** Observations on runs

    The notions the statements below are phrased with. *)

Definition is_get (e : event) : bool :=
  match e with EvGet _ _ => true | _ => false end.

Definition is_html_report (e : event) : bool :=
  match e with EvHtmlReport _ _ _ => true | _ => false end.

Definition is_to_csv (e : event) : bool :=
  match e with EvToCsv _ _ => true | _ => false end.

Definition count_events (p : event -> bool) (t : trace) : nat :=
  length (List.filter p t).

(** The consolidated summaries written during a run: path and rows of
    every [to_csv], in order. *)
Fixpoint written_summaries (t : trace) : list (string * list Row) :=
  match t with
  | [] => []
  | EvToCsv path rows :: rest => (path, rows) :: written_summaries rest
  | _ :: rest => written_summaries rest
  end.

(** Traversing a series in positional order meets the dates in
    non-decreasing order. *)
Definition chronological (s : Series) : Prop :=
  Sorted Z.le (map (fun p => epoch_seconds (fst p)) s).

(** The same collaborators with another clock. *)
Definition with_clock (E : External) (clock : trace -> string) : External :=
  {| read_csv := @read_csv E;
     requests_get := @requests_get E;
     datetime_in_bounds := @datetime_in_bounds E;
     pandas_other_shape := @pandas_other_shape E;
     qs_cagr := @qs_cagr E;
     qs_volatility := @qs_volatility E;
     qs_sharpe := @qs_sharpe E;
     qs_sortino := @qs_sortino E;
     qs_max_drawdown := @qs_max_drawdown E;
     qs_value_at_risk := @qs_value_at_risk E;
     qs_reports_html := @qs_reports_html E;
     today := clock;
     float_repr := @float_repr E |}.

(** An event with the path of a summary forgotten. *)
Definition forget_summary_path (e : event) : event :=
  match e with
  | EvToCsv _ rows => EvToCsv "" rows
  | _ => e
  end.

Section Observations.
Context `{E : External}.

(** The history at the start of attempt [k + 1] of a fetch that started
    at history [t], when the [k] attempts before it failed: each of them
    left a request and a wait. *)
Definition attempt_trace (a : NAVAnalyzer) (isin : cell) (t : trace) (k : nat) : trace :=
  t ++ List.concat (replicate k [EvGet (nav_url isin) (headers a); EvSleep]).

(** What attempt [k + 1] of that fetch yields. *)
Definition attempt_outcome (a : NAVAnalyzer) (isin : cell) (t : trace) (k : nat)
  : result json :=
  fst (fetch_nav_data_body a isin (attempt_trace a isin t k)).

(** The acceptance conditions on a response, as the specification words
    them: the transport call succeeds with a non-error status, the body
    parses, the success indicator equals "success", and there is a data
    field. *)
Definition accepted (answer : transport) (payload : json) : Prop :=
  exists status_code fields,
    answer = Responded status_code (Some payload) /\
    ~ (400 <= status_code < 600)%Z /\
    payload = JObj fields /\
    dict_get fields "status" = Some (JStr "success") /\
    (exists v, dict_get fields "data" = Some v).

(** A roster row with an [isin] column, as every Security Record has. *)
Definition has_isin (row : Row) : Prop := is_Some (row !! "isin").

(** The history after the loop of [analyze_securities] has dealt with one
    row whose [try] block ended with [r] at history [t1]. *)
Definition after_row (row : Row) (r : result Row) (t1 : trace) : trace :=
  match r with
  | Ok _ => t1
  | Raise e => snd (handle_failure row e t1)
  end.

(** The outcome of the [try] block for each row of the roster, in roster
    order, when the loop starts at history [t]. *)
Fixpoint security_outcomes (a : NAVAnalyzer) (rows : list Row) (t : trace)
  : list (Row * result Row) :=
  match rows with
  | [] => []
  | row :: rest =>
      let r := process_row a row t in
      (row, fst r) :: security_outcomes a rest (after_row row (fst r) (snd r))
  end.

(** The result rows among the outcomes. *)
Definition successes (outcomes : list (Row * result Row)) : list Row :=
  omap (fun o => ok_value (snd o)) outcomes.

(** A result row that carries the roster row it was made from: outside
    the metric names the fields are those of the roster row, and every
    metric name holds a float. *)
Definition extends_record (row result_row : Row) : Prop :=
  (forall column, column ∉ metric_names -> result_row !! column = row !! column) /\
  (forall column, column ∈ metric_names -> exists f, result_row !! column = Some (CFloat f)).

End Observations.

(** ** Concrete collaborators, used to run the analyzer on examples *)

Module Scenario.

(** Upstream answers the requests from a script, by the number of
    requests made so far; the roster and the report outcome are fixed. *)
Definition scripted (roster : result (list Row)) (script : list transport)
    (report_failure : option exn) : External :=
  {| read_csv := fun _ => roster;
     requests_get := fun t _ _ =>
       nth (count_events is_get t) script (Failed "ConnectionError");
     datetime_in_bounds := fun ts => (Z.abs ts <=? 9223372036)%Z;
     pandas_other_shape := fun _ => Raise (LibraryError "pandas" "ValueError");
     qs_cagr := fun _ => Ok 0.125%float;
     qs_volatility := fun _ => Ok 0.25%float;
     qs_sharpe := fun _ rf => Ok (1 - rf)%float;
     qs_sortino := fun _ rf => Ok (2 - rf)%float;
     qs_max_drawdown := fun _ => Ok (-0.5)%float;
     qs_value_at_risk := fun _ => Ok (-0.0625)%float;
     qs_reports_html := fun _ _ _ _ => report_failure;
     today := fun _ => "2025-01-31";
     float_repr := fun _ => "nan" |}.

Definition analyzer : NAVAnalyzer :=
  {| csv_path := "funds.csv"; csrf_token := "token";
     headers := make_headers "token"; report_dir := "reports" |}.

Definition payload : json :=
  JObj [("status", JStr "success");
        ("data", JArr [JArr [JNum (NInt 100); JNum (NFloat 9)];
                       JArr [JNum (NInt 200); JNum (NFloat 10)]])].

Definition unsorted_pairs : list (Z * number) :=
  [(200, NFloat 10); (100, NFloat 9)].

Definition good : transport := Responded 200 (Some payload).
Definition unavailable : transport := Responded 503 None.

Definition fund (isin name : string) : Row :=
  {[ "isin" := CStr isin; "security_name" := CStr name ]}.

(** A roster row whose descriptive column is named like a metric. *)
Definition rated_fund : Row :=
  <[ "cagr" := CStr "high" ]> (fund "INF109K01Z48" "Bluechip").

Definition roster3 : list Row :=
  [fund "INF109K01Z48" "Bluechip"; fund "INF200K01RJ1" "Smallcap";
   fund "INF846K01EW2" "Midcap"].

Definition isin1 : cell := CStr "INF109K01Z48".

(** No request ever gets through. *)
Definition offline : External := scripted (Ok []) [] None.

(** The first request is answered with a valid payload. *)
Definition healthy : External := scripted (Ok []) [good] None.

(** Four error answers, then a valid payload. *)
Definition flaky : External :=
  scripted (Ok [fund "INF109K01Z48" "Bluechip"])
    [unavailable; unavailable; unavailable; unavailable; good] None.

(** Five error answers in a row. *)
Definition outage : External :=
  scripted (Ok [fund "INF109K01Z48" "Bluechip"])
    [unavailable; unavailable; unavailable; unavailable; unavailable; good] None.

(** Three securities; every request for the second one is refused. *)
Definition second_fails : External :=
  scripted (Ok roster3)
    [good; unavailable; unavailable; unavailable; unavailable; unavailable; good] None.

(** One security whose roster row has a column named [cagr]. *)
Definition rated : External := scripted (Ok [rated_fund]) [good] None.

(** The roster file cannot be read. *)
Definition unreadable : External :=
  scripted (Raise (OSError "No such file or directory")) [good] None.

End Scenario.

(** ** Projections of a history

    What a run requested, logged as errors, and reported, in order. *)

Definition is_sleep (e : event) : bool :=
  match e with EvSleep => true | _ => false end.

Definition request_of (e : event) : option (string * list (string * string)) :=
  match e with EvGet url hdrs => Some (url, hdrs) | _ => None end.

Definition requests (t : trace) : list (string * list (string * string)) :=
  omap request_of t.

Definition error_log_of (e : event) : option log_record :=
  match e with EvLogError r => Some r | _ => None end.

Definition error_logs (t : trace) : list log_record := omap error_log_of t.

Definition report_of (e : event) : option (Series * string * string) :=
  match e with EvHtmlReport s title output => Some (s, title, output) | _ => None end.

Definition reports (t : trace) : list (Series * string * string) := omap report_of t.

Section Diagnostics.
Context `{E : External}.

(** The title and the output path [generate_html_report] passes on. *)
Definition report_title (name : cell) : string := py_str name +:+ " Analysis".

Definition report_path (a : NAVAnalyzer) (isin : cell) : string :=
  report_dir a +:+ "/" +:+ py_str isin +:+ "_report.html".

(** The error record the loop logs for a row whose [try] block raised. *)
Definition failure_record (o : Row * result Row) : option log_record :=
  match snd o, fst o !! "isin" with
  | Raise e, Some isin => Some (ErrorProcessingIsin (py_str isin) e)
  | _, _ => None
  end.

(** The requests one roster row may cause: between one and five, all to
    the URL of its ISIN and with the headers of the analyzer. *)
Definition requests_of_row (a : NAVAnalyzer) (row : Row)
    (group : list (string * list (string * string))) : Prop :=
  exists isin n,
    row !! "isin" = Some isin /\ (1 <= n <= max_attempts)%nat /\
    group = replicate n (nav_url isin, headers a).

(** A request made on behalf of a row of a roster: to the URL of the ISIN
    of one of its rows, with the headers of the analyzer. *)
Definition request_for_roster (a : NAVAnalyzer) (rows : list Row)
    (rq : string * list (string * string)) : Prop :=
  snd rq = headers a /\
  exists row isin, row ∈ rows /\ row !! "isin" = Some isin /\ fst rq = nav_url isin.

(** The report calls one roster row may cause: none or one, and the one
    only for a series whose statistics were computed, under the title and
    path of the row. *)
Definition reports_of_row (a : NAVAnalyzer) (o : Row * result Row)
    (group : list (Series * string * string)) : Prop :=
  (is_ok (snd o) = true -> length group = 1%nat) /\
  (length group <= 1)%nat /\
  (forall s title output, (s, title, output) ∈ group ->
     exists isin name stats,
       fst o !! "isin" = Some isin /\
       fst o !! "security_name" = Some name /\
       generate_statistics s = Ok stats /\
       title = report_title name /\
       output = report_path a isin).

End Diagnostics.

(** ** Sequencing of library calls *)



(** * Properties *)

(** ** The retry loop *)

Section RetryFacts.
Context `{E : External}.

Lemma count_events_app p (t1 t2 : trace) :
  count_events p (t1 ++ t2) = (count_events p t1 + count_events p t2)%nat.
Proof.
  unfold count_events. rewrite List.filter_app. apply length_app.
Qed.

Lemma stop_after_attempt_true n :
  stop_after_attempt max_attempts n = true <-> (5 <= n)%nat.
Proof. unfold stop_after_attempt, max_attempts. apply Nat.leb_le. Qed.

Lemma stop_after_attempt_false n :
  stop_after_attempt max_attempts n = false <-> (n < 5)%nat.
Proof. unfold stop_after_attempt, max_attempts. apply Nat.leb_gt. Qed.

Lemma count_gets_request url hdrs :
  count_events is_get [EvGet url hdrs] = 1%nat.
Proof. reflexivity. Qed.

Lemma count_gets_request_wait url hdrs :
  count_events is_get [EvGet url hdrs; EvSleep] = 1%nat.
Proof. reflexivity. Qed.

Lemma fetch_nav_data_body_eq a isin t :
  fetch_nav_data_body a isin t =
  (validate_response isin (requests_get t (nav_url isin) (headers a)),
   t ++ [EvGet (nav_url isin) (headers a)]).
Proof. reflexivity. Qed.

Lemma attempt_trace_0 a isin t : attempt_trace a isin t 0 = t.
Proof. unfold attempt_trace. simpl. apply app_nil_r. Qed.

Lemma attempt_trace_S a isin t k :
  attempt_trace a isin t (S k) =
  attempt_trace a isin (t ++ [EvGet (nav_url isin) (headers a); EvSleep]) k.
Proof.
  unfold attempt_trace. simpl. now rewrite <- app_assoc.
Qed.

Lemma attempt_outcome_S a isin t k :
  attempt_outcome a isin t (S k) =
  attempt_outcome a isin (t ++ [EvGet (nav_url isin) (headers a); EvSleep]) k.
Proof. unfold attempt_outcome. now rewrite attempt_trace_S. Qed.

Lemma count_gets_attempt_trace a isin t k :
  count_events is_get (attempt_trace a isin t k) = (count_events is_get t + k)%nat.
Proof.
  revert t. induction k as [|k IH]; intros t.
  - rewrite attempt_trace_0. lia.
  - rewrite attempt_trace_S, IH, count_events_app, count_gets_request_wait. lia.
Qed.

(** The loop always finishes within the fuel that the attempt cap
    calls for. *)
Lemma retrying_total {A} (fn : M A) fuel n t :
  (1 <= fuel)%nat -> (S max_attempts - n <= fuel)%nat ->
  exists r, retrying fuel fn n t = Some r.
Proof.
  revert n t. induction fuel as [|fuel IH]; intros n t H1 H2; [lia|].
  cbn [retrying]. destruct (fn t) as [[x|e] t1]; [eauto|].
  destruct (stop_after_attempt max_attempts n) eqn:Hstop; [eauto|].
  apply stop_after_attempt_false in Hstop. unfold max_attempts in *.
  apply IH; lia.
Qed.

(** More fuel does not change an answer. *)
Lemma retrying_more_fuel {A} (fn : M A) fuel n t r :
  retrying fuel fn n t = Some r -> retrying (S fuel) fn n t = Some r.
Proof.
  revert n t. induction fuel as [|fuel IH]; intros n t H; [discriminate|].
  cbn [retrying] in H. remember (S fuel) as fuel1. cbn [retrying]. subst fuel1.
  destruct (fn t) as [[x|e] t1]; [exact H|].
  destruct (stop_after_attempt max_attempts n); [exact H|].
  now apply IH.
Qed.

Lemma retrying_enough_fuel a isin t fuel :
  (max_attempts <= fuel)%nat ->
  retrying fuel (fetch_nav_data_body a isin) 1 t = Some (fetch_nav_data a isin t).
Proof.
  intros Hfuel. unfold fetch_nav_data.
  destruct (retrying_total (fetch_nav_data_body a isin) max_attempts 1 t) as [r Hr];
    [unfold max_attempts; lia .. |].
  rewrite Hr.
  induction Hfuel as [|m _ IH]; [exact Hr|].
  now apply retrying_more_fuel.
Qed.

(** After [j] failed attempts the loop stands at attempt [n + j], at the
    history those attempts left. *)
Lemma retrying_skip_failures a isin j : forall fuel n t,
  (forall k, (k < j)%nat -> is_ok (attempt_outcome a isin t k) = false) ->
  (n + j <= max_attempts)%nat ->
  retrying (j + fuel) (fetch_nav_data_body a isin) n t =
  retrying fuel (fetch_nav_data_body a isin) (n + j) (attempt_trace a isin t j).
Proof.
  induction j as [|j IH]; intros fuel n t Hfail Hn.
  - rewrite attempt_trace_0, Nat.add_0_r. reflexivity.
  - assert (H0 := Hfail 0%nat ltac:(lia)).
    unfold attempt_outcome in H0. rewrite attempt_trace_0 in H0.
    change (S j + fuel)%nat with (S (j + fuel)). cbn [retrying].
    rewrite fetch_nav_data_body_eq in *. cbn [fst] in H0.
    destruct (validate_response _ _) as [x|e]; [discriminate|].
    destruct (stop_after_attempt max_attempts n) eqn:Hstop.
    { apply stop_after_attempt_true in Hstop. unfold max_attempts in Hn. lia. }
    rewrite <- app_assoc. cbn [app].
    rewrite IH.
    + rewrite attempt_trace_S. f_equal. lia.
    + intros k Hk. rewrite <- attempt_outcome_S. apply Hfail. lia.
    + lia.
Qed.

(** A fetch makes at least one and at most [6 - n] requests when it
    starts at attempt [n]. *)
Lemma retrying_gets_bound a isin fuel : forall n t r t',
  (n <= max_attempts)%nat ->
  retrying fuel (fetch_nav_data_body a isin) n t = Some (r, t') ->
  (count_events is_get t < count_events is_get t')%nat /\
  (count_events is_get t' + n <= count_events is_get t + S max_attempts)%nat.
Proof.
  induction fuel as [|fuel IH]; intros n t r t' Hn H; [discriminate|].
  cbn [retrying] in H. rewrite fetch_nav_data_body_eq in H.
  destruct (validate_response _ _) as [x|e].
  - injection H as _ <-. rewrite count_events_app, count_gets_request.
    unfold max_attempts in *. lia.
  - destruct (stop_after_attempt max_attempts n) eqn:Hstop.
    + injection H as _ <-. rewrite count_events_app, count_gets_request.
      unfold max_attempts in *. lia.
    + apply stop_after_attempt_false in Hstop. unfold max_attempts in *.
      apply IH in H; [|lia].
      rewrite !count_events_app, count_gets_request in H.
      change (count_events is_get [EvSleep]) with 0%nat in H. lia.
Qed.

End RetryFacts.

(** ** Validation of one response *)

Section ValidationFacts.
Context `{E : External}.

Lemma is_error_status_false status_code :
  is_error_status status_code = false <-> ~ (400 <= status_code < 600)%Z.
Proof.
  unfold is_error_status.
  destruct (Z.leb_spec 400 status_code), (Z.ltb_spec status_code 600);
    cbn; split; intros; try discriminate; try reflexivity; lia.
Qed.

Lemma equals_success_true x :
  equals_success x = true <-> x = Some (JStr "success").
Proof.
  unfold equals_success. split.
  - destruct x as [[| | |s| |]|]; try discriminate.
    intros H. apply String.eqb_eq in H. now subst.
  - intros ->. reflexivity.
Qed.

Lemma dict_contains_true fields key :
  dict_contains fields key = true <-> exists v, dict_get fields key = Some v.
Proof.
  unfold dict_contains. destruct (dict_get fields key) as [v|]; split.
  - eauto.
  - reflexivity.
  - discriminate.
  - intros [v Hv]. discriminate.
Qed.

Lemma validate_response_ok_iff isin answer payload :
  validate_response isin answer = Ok payload <-> accepted answer payload.
Proof.
  unfold accepted. split.
  - destruct answer as [kind|status_code body]; [discriminate|]. cbn [validate_response].
    destruct (is_error_status status_code) eqn:Hstatus; [discriminate|].
    destruct body as [[| | | | |fields]|]; try discriminate.
    destruct (negb _ || negb _)%bool eqn:Hcheck; [discriminate|].
    intros H. injection H as <-.
    apply orb_false_elim in Hcheck as [Hs Hd].
    apply negb_false_iff in Hs, Hd.
    exists status_code, fields. repeat split.
    + now apply is_error_status_false.
    + now apply equals_success_true.
    + now apply dict_contains_true.
  - intros (status_code & fields & -> & Hstatus & -> & Hs & Hd).
    cbn [validate_response].
    apply is_error_status_false in Hstatus. rewrite Hstatus.
    apply equals_success_true in Hs. apply dict_contains_true in Hd.
    now rewrite Hs, Hd.
Qed.

End ValidationFacts.

(** ** Series construction *)

Section SeriesFacts.
Context `{E : External}.

Lemma to_datetime_column_ok column :
  Forall (fun ts => datetime_in_bounds ts = true) column ->
  to_datetime_column column = Ok (map Datetime column).
Proof.
  induction 1 as [|ts rest Hts _ IH]; [reflexivity|].
  cbn [to_datetime_column]. unfold to_datetime. rewrite Hts. cbn [rbind].
  now rewrite IH.
Qed.

Lemma to_datetime_column_inv column dates :
  to_datetime_column column = Ok dates ->
  dates = map Datetime column /\
  Forall (fun ts => datetime_in_bounds ts = true) column.
Proof.
  revert dates. induction column as [|ts rest IH]; intros dates H.
  - injection H as <-. split; constructor.
  - cbn [to_datetime_column] in H. unfold to_datetime in H.
    destruct (datetime_in_bounds ts) eqn:Hts; [|discriminate].
    cbn [rbind] in H.
    destruct (to_datetime_column rest) as [ds|e]; [|discriminate].
    injection H as <-. destruct (IH ds eq_refl) as [-> Hrest].
    split; [reflexivity | now constructor].
Qed.

Lemma zip_dates (nav_data : list (Z * number)) :
  zip (map Datetime (map fst nav_data)) (map snd nav_data) =
  map (fun p => (Datetime (fst p), snd p)) nav_data.
Proof.
  induction nav_data as [|[ts v] rest IH]; [reflexivity|].
  cbn. now rewrite <- IH.
Qed.

(** On timestamps pandas can represent, the series is the list of pairs
    itself, line by line, with each timestamp turned into its date. *)
Lemma process_nav_data_ok nav_data :
  Forall (fun ts => datetime_in_bounds ts = true) (map fst nav_data) ->
  process_nav_data nav_data = Ok (map (fun p => (Datetime (fst p), snd p)) nav_data).
Proof.
  intros H. unfold process_nav_data.
  rewrite (to_datetime_column_ok _ H). cbn [rbind]. now rewrite zip_dates.
Qed.

Lemma series_instants (nav_data : list (Z * number)) :
  map (fun p => epoch_seconds (fst p))
      (map (fun p => (Datetime (fst p), snd p)) nav_data) = map fst nav_data.
Proof.
  rewrite map_map. apply map_ext. now intros [ts v].
Qed.

End SeriesFacts.

(** ** The orchestrator *)

Section OrchestratorFacts.
Context `{E : External}.

Lemma written_summaries_app (t1 t2 : trace) :
  written_summaries (t1 ++ t2) = written_summaries t1 ++ written_summaries t2.
Proof.
  induction t1 as [|e t1 IH]; [reflexivity|].
  destruct e; cbn; now rewrite IH.
Qed.

Lemma generate_statistics_inv nav_series stats :
  generate_statistics nav_series = Ok stats ->
  exists cagr volatility sharpe sortino max_drawdown value_at_risk,
    stats = list_to_map
              [("cagr", CFloat cagr);
               ("volatility", CFloat volatility);
               ("sharpe", CFloat sharpe);
               ("sortino", CFloat sortino);
               ("max_drawdown", CFloat max_drawdown);
               ("value_at_risk", CFloat value_at_risk)].
Proof.
  unfold generate_statistics. intros H.
  destruct (qs_cagr nav_series) as [cagr|]; [|discriminate].
  destruct (qs_volatility nav_series) as [volatility|]; [|discriminate].
  destruct (qs_sharpe nav_series risk_free_rate) as [sharpe|]; [|discriminate].
  destruct (qs_sortino nav_series risk_free_rate) as [sortino|]; [|discriminate].
  destruct (qs_max_drawdown nav_series) as [max_drawdown|]; [|discriminate].
  destruct (qs_value_at_risk nav_series) as [value_at_risk|]; [|discriminate].
  cbn [rbind] in H. injection H as <-. eauto 7.
Qed.

(** Merging the statistics into a roster row leaves every column that is
    not named like a metric as it was, and puts a float under each metric
    name. *)
Lemma dict_update_extends_record row nav_series stats :
  generate_statistics nav_series = Ok stats ->
  extends_record row (dict_update row stats).
Proof.
  intros H. apply generate_statistics_inv in H
    as (cagr & volatility & sharpe & sortino & max_drawdown & value_at_risk & ->).
  unfold extends_record, dict_update, metric_names. split.
  - intros column Hcolumn. apply lookup_union_r.
    apply not_elem_of_list_to_map_1. exact Hcolumn.
  - intros column Hcolumn.
    repeat (apply elem_of_cons in Hcolumn as [->|Hcolumn];
            [eexists; apply lookup_union_Some_l; reflexivity|]).
    now apply elem_of_nil in Hcolumn.
Qed.

(** What a [try] block that ended well did. *)
Lemma process_row_ok_inv a row t result_row t' :
  process_row a row t = (Ok result_row, t') ->
  has_isin row /\
  exists nav_series stats,
    generate_statistics nav_series = Ok stats /\
    result_row = dict_update row stats.
Proof.
  unfold process_row, generate_html_report, bind, lift, emit, ret, row_getitem, has_isin.
  destruct (row !! "isin") as [isin|]; [|discriminate].
  destruct (fetch_nav_data a isin _) as [[nav_data|] t1]; [|discriminate].
  destruct (json_getitem nav_data "data") as [data|]; [|discriminate].
  destruct (process_nav_json data) as [nav_series|]; [|discriminate].
  destruct (generate_statistics nav_series) as [stats|] eqn:Hstats; [|discriminate].
  destruct (row !! "security_name") as [name|]; [|discriminate].
  destruct (qs_reports_html _ _ _ _); [discriminate|].
  intros H. injection H as <- _. eauto.
Qed.

(** A [try] block whose every step goes well ends with the merged row. *)
Lemma process_row_success a row t isin nav_data t1 data nav_series stats name :
  row !! "isin" = Some isin ->
  fetch_nav_data a isin (t ++ [EvLogInfo (ProcessingIsin (py_str isin))]) = (Ok nav_data, t1) ->
  json_getitem nav_data "data" = Ok data ->
  process_nav_json data = Ok nav_series ->
  generate_statistics nav_series = Ok stats ->
  row !! "security_name" = Some name ->
  qs_reports_html t1 nav_series (py_str name +:+ " Analysis")
    (report_dir a +:+ "/" +:+ py_str isin +:+ "_report.html") = None ->
  process_row a row t =
  (Ok (dict_update row stats),
   t1 ++ [EvHtmlReport nav_series (py_str name +:+ " Analysis")
            (report_dir a +:+ "/" +:+ py_str isin +:+ "_report.html")]).
Proof.
  intros Hisin Hfetch Hdata Hseries Hstats Hname Hreport.
  unfold process_row, generate_html_report, bind, lift, emit, ret, row_getitem.
  rewrite Hisin, Hfetch, Hdata, Hseries, Hstats, Hname, Hreport. reflexivity.
Qed.

Lemma handle_failure_ok row e t :
  has_isin row ->
  exists isin, row !! "isin" = Some isin /\
    handle_failure row e t = (Ok tt, t ++ [EvLogError (ErrorProcessingIsin (py_str isin) e)]).
Proof.
  intros [isin Hisin]. exists isin. split; [exact Hisin|].
  unfold handle_failure, bind, lift, emit, row_getitem. now rewrite Hisin.
Qed.

(** The loop in terms of the per-row outcomes: when every row has an
    [isin] column the loop ends normally, and its result is what it
    started with followed by the result rows, in roster order. *)
Lemma process_rows_outcomes a rows : forall results t,
  Forall has_isin rows ->
  exists t', process_rows a rows results t =
             (Ok (results ++ successes (security_outcomes a rows t)), t').
Proof.
  induction rows as [|row rest IH]; intros results t Hrows.
  - exists t. cbn. now rewrite app_nil_r.
  - apply Forall_cons in Hrows as [Hrow Hrest].
    cbn [process_rows security_outcomes].
    destruct (process_row a row t) as [[result_row|e] t1].
    + destruct (IH (results ++ [result_row]) t1 Hrest) as [t' Ht'].
      exists t'. rewrite Ht'. cbn. now rewrite <- app_assoc.
    + destruct (handle_failure_ok row e t1 Hrow) as (isin & _ & Hh).
      unfold bind at 1. rewrite Hh.
      cbn [fst snd after_row]. rewrite Hh. cbn [snd].
      destruct (IH results (t1 ++ [EvLogError (ErrorProcessingIsin (py_str isin) e)]) Hrest)
        as [t' Ht'].
      exists t'. rewrite Ht'. reflexivity.
Qed.

Lemma security_outcomes_rows a rows : forall t,
  map fst (security_outcomes a rows t) = rows.
Proof.
  induction rows as [|row rest IH]; intros t; [reflexivity|].
  cbn. now rewrite IH.
Qed.

Lemma successes_length outcomes :
  (length (successes outcomes) <= length outcomes)%nat.
Proof.
  unfold successes. induction outcomes as [|[row [rr|e]] rest IH]; cbn; lia.
Qed.

(** The rows of the summary stand, in order, for some of the rows of the
    roster, and each carries the record it stands for. *)
Lemma successes_extend_records a rows : forall t,
  exists kept, sublist kept rows /\
    Forall2 extends_record kept (successes (security_outcomes a rows t)).
Proof.
  induction rows as [|row rest IH]; intros t.
  - exists []. split; constructor.
  - cbn [security_outcomes]. unfold successes. cbn [omap fst snd].
    destruct (process_row a row t) as [[result_row|e] t1] eqn:Hrow; cbn [fst snd ok_value].
    + destruct (IH (after_row row (Ok result_row) t1)) as (kept & Hsub & Hall).
      exists (row :: kept). split; [now constructor|].
      constructor; [|exact Hall].
      apply process_row_ok_inv in Hrow as (_ & nav_series & stats & Hstats & ->).
      now apply dict_update_extends_record with nav_series.
    + destruct (IH (after_row row (Raise e) t1)) as (kept & Hsub & Hall).
      exists kept. split; [now constructor | exact Hall].
Qed.

End OrchestratorFacts.

(** ** No summary is written before the loop is over *)

Section SummaryFacts.
Context `{E : External}.

Lemma retrying_no_summary a isin fuel : forall n t r t',
  retrying fuel (fetch_nav_data_body a isin) n t = Some (r, t') ->
  written_summaries t' = written_summaries t.
Proof.
  induction fuel as [|fuel IH]; intros n t r t' H; [discriminate|].
  cbn [retrying] in H. rewrite fetch_nav_data_body_eq in H.
  destruct (validate_response _ _) as [x|e].
  - injection H as _ <-. rewrite written_summaries_app. apply app_nil_r.
  - destruct (stop_after_attempt max_attempts n).
    + injection H as _ <-. rewrite written_summaries_app. apply app_nil_r.
    + apply IH in H. rewrite H, !written_summaries_app. cbn. now rewrite !app_nil_r.
Qed.

Lemma fetch_nav_data_no_summary a isin t :
  written_summaries (snd (fetch_nav_data a isin t)) = written_summaries t.
Proof.
  assert (H := retrying_enough_fuel a isin t max_attempts (le_n _)).
  destruct (fetch_nav_data a isin t) as [r t'].
  now apply retrying_no_summary in H.
Qed.

Lemma process_row_no_summary a row t :
  written_summaries (snd (process_row a row t)) = written_summaries t.
Proof.
  unfold process_row, generate_html_report, bind, lift, emit, ret, row_getitem.
  destruct (row !! "isin") as [isin|]; [|reflexivity].
  assert (Hf := fetch_nav_data_no_summary a isin
                  (t ++ [EvLogInfo (ProcessingIsin (py_str isin))])).
  rewrite written_summaries_app in Hf. cbn in Hf. rewrite app_nil_r in Hf.
  destruct (fetch_nav_data a isin _) as [[nav_data|] t1]; cbn [snd] in *; [|exact Hf].
  destruct (json_getitem nav_data "data") as [data|]; [|exact Hf].
  destruct (process_nav_json data) as [nav_series|]; [|exact Hf].
  destruct (generate_statistics nav_series) as [stats|]; [|exact Hf].
  destruct (row !! "security_name") as [name|]; [|exact Hf].
  destruct (qs_reports_html _ _ _ _);
    cbn [snd]; rewrite written_summaries_app, Hf; apply app_nil_r.
Qed.

Lemma handle_failure_no_summary row e t :
  written_summaries (snd (handle_failure row e t)) = written_summaries t.
Proof.
  unfold handle_failure, bind, lift, emit, row_getitem.
  destruct (row !! "isin"); [|reflexivity].
  cbn [snd]. rewrite written_summaries_app. apply app_nil_r.
Qed.

Lemma process_rows_no_summary a rows : forall results t,
  written_summaries (snd (process_rows a rows results t)) = written_summaries t.
Proof.
  induction rows as [|row rest IH]; intros results t; [reflexivity|].
  cbn [process_rows].
  assert (Hrow := process_row_no_summary a row t).
  destruct (process_row a row t) as [[result_row|e] t1]; cbn [snd] in Hrow.
  - now rewrite IH.
  - assert (Hh := handle_failure_no_summary row e t1).
    unfold bind at 1.
    destruct (handle_failure row e t1) as [[[]|e'] t2]; cbn [snd] in Hh.
    + rewrite IH. congruence.
    + cbn [snd]. congruence.
Qed.

(** A run on a roster that loads and whose rows have an [isin] column:
    the loop ends normally with the result rows, and the summary and the
    closing log line follow it. *)
Lemma analyze_securities_run a t df :
  read_csv (csv_path a) = Ok df ->
  Forall has_isin df ->
  exists t_loop,
    process_rows a df [] (snd (load_isin_data a t)) =
    (Ok (successes (security_outcomes a df (snd (load_isin_data a t)))), t_loop) /\
    written_summaries t_loop = written_summaries t /\
    analyze_securities a t =
    (Ok tt,
     t_loop ++ [EvToCsv (report_dir a +:+ "/" +:+ today t_loop +:+ "_report.csv")
                  (successes (security_outcomes a df (snd (load_isin_data a t))));
                EvLogInfo AnalysisCompleted]).
Proof.
  intros Hload Hrows.
  assert (Hl : load_isin_data a t =
               (Ok df, t ++ [EvReadCsv (csv_path a);
                             EvLogInfo (LoadedRecords (length df) (csv_path a))])).
  { unfold load_isin_data, bind, emit, ret. rewrite Hload.
    now rewrite <- app_assoc. }
  rewrite Hl. cbn [snd].
  destruct (process_rows_outcomes a df []
              (t ++ [EvReadCsv (csv_path a);
                     EvLogInfo (LoadedRecords (length df) (csv_path a))]) Hrows)
    as [t_loop Hloop].
  exists t_loop. cbn [app] in Hloop. split; [exact Hloop|]. split.
  - assert (H := process_rows_no_summary a df []
                   (t ++ [EvReadCsv (csv_path a);
                          EvLogInfo (LoadedRecords (length df) (csv_path a))])).
    rewrite Hloop in H. cbn [snd] in H. rewrite H, written_summaries_app.
    apply app_nil_r.
  - unfold analyze_securities, bind at 1. rewrite Hl.
    unfold bind at 1. rewrite Hloop.
    unfold bind, history, emit. now rewrite <- app_assoc.
Qed.

End SummaryFacts.

(** * The claims *)

(** Two steps that the examples below repeat: the first four attempts of
    a scripted fetch fail, and the rows of a concrete roster have an
    [isin] column. *)
Ltac first_four_fail :=
  let k := fresh "k" in
  let Hk := fresh "Hk" in
  intros k Hk; do 4 (destruct k as [|k]; [reflexivity|]); lia.

Ltac roster_has_isin := repeat constructor; eexists; reflexivity.

(** ** Series Builder *)

(** C1, as amended.  [process_nav_data] does not sort: on timestamps that
    pandas can represent it returns a series that holds the input pairs
    in input order, position by position, each timestamp read as seconds
    since the epoch.  Traversal of the series is therefore chronological
    exactly when the input pairs already come in non-decreasing timestamp
    order. *)
Theorem process_nav_data_keeps_input_order `{E : External} (nav_data : list (Z * number)) :
  Forall (fun ts => datetime_in_bounds ts = true) (map fst nav_data) ->
  exists s,
    process_nav_data nav_data = Ok s /\
    map (fun p => (epoch_seconds (fst p), snd p)) s = nav_data /\
    (chronological s <-> Sorted Z.le (map fst nav_data)).
Proof.
  intros Hbounds. eexists. split; [now apply process_nav_data_ok|]. split.
  - rewrite map_map. cbn. rewrite <- (map_id nav_data) at 2.
    apply map_ext. now intros [ts v].
  - unfold chronological. now rewrite series_instants.
Qed.

Lemma process_nav_data_keeps_input_order_witness :
  exists s,
    process_nav_data (E := Scenario.offline) Scenario.unsorted_pairs = Ok s /\
    map (fun p => (epoch_seconds (fst p), snd p)) s = Scenario.unsorted_pairs /\
    (chronological s <-> Sorted Z.le (map fst Scenario.unsorted_pairs)).
Proof.
  apply (process_nav_data_keeps_input_order
           (E := Scenario.offline) Scenario.unsorted_pairs).
  repeat constructor.
Defined.

(** C1 as stated fails: from the pairs [[200, 10.0], [100, 9.0]] the
    series holds the point of timestamp 200 first and the point of
    timestamp 100 second, so its traversal is not chronological. *)
Lemma process_nav_data_unsorted_not_chronological :
  process_nav_data (E := Scenario.offline) [(200, NFloat 10); (100, NFloat 9)]
  = Ok [(Datetime 200, NFloat 10); (Datetime 100, NFloat 9)] /\
  ~ chronological [(Datetime 200, NFloat 10); (Datetime 100, NFloat 9)].
Proof.
  split; [reflexivity|].
  unfold chronological. cbn. intros H.
  apply Sorted_inv in H as [_ H]. apply HdRel_inv in H. lia.
Qed.

(** C10.  On a well-formed payload (a list of [[int, number]] pairs whose
    timestamps pandas can represent) [process_nav_data] returns a series
    with exactly one entry per input pair: the lengths agree, and the
    entry at each position is the pair at that position, so pairs that
    share a timestamp all stay, as distinct entries. *)
Theorem process_nav_data_one_entry_per_pair `{E : External}
    (data : json) (nav_data : list (Z * number)) :
  as_pairs data = Some nav_data ->
  Forall (fun ts => datetime_in_bounds ts = true) (map fst nav_data) ->
  exists s,
    process_nav_json data = Ok s /\
    process_nav_data nav_data = Ok s /\
    length s = length nav_data /\
    (forall lines, data = JArr lines -> length s = length lines) /\
    (forall i ts v, nav_data !! i = Some (ts, v) -> s !! i = Some (Datetime ts, v)).
Proof.
  intros Hpairs Hbounds.
  exists (map (fun p => (Datetime (fst p), snd p)) nav_data).
  assert (Hs := process_nav_data_ok nav_data Hbounds).
  split; [unfold process_nav_json; now rewrite Hpairs|].
  split; [exact Hs|]. split; [apply length_map|]. split.
  - intros lines ->. cbn [as_pairs] in Hpairs.
    apply length_mapM in Hpairs. now rewrite length_map.
  - intros i ts v Hi. rewrite list_lookup_fmap, Hi. reflexivity.
Qed.

Lemma process_nav_data_one_entry_per_pair_witness :
  exists s,
    process_nav_json (E := Scenario.offline)
      (JArr [JArr [JNum (NInt 100); JNum (NFloat 9)];
             JArr [JNum (NInt 100); JNum (NFloat 9.5)];
             JArr [JNum (NInt 200); JNum (NInt 10)]]) = Ok s /\
    length s = 3%nat /\
    s !! 0%nat = Some (Datetime 100, NFloat 9) /\
    s !! 1%nat = Some (Datetime 100, NFloat 9.5).
Proof.
  destruct (process_nav_data_one_entry_per_pair
              (E := Scenario.offline)
              (JArr [JArr [JNum (NInt 100); JNum (NFloat 9)];
                     JArr [JNum (NInt 100); JNum (NFloat 9.5)];
                     JArr [JNum (NInt 200); JNum (NInt 10)]])
              [(100, NFloat 9); (100, NFloat 9.5); (200, NInt 10)]
              eq_refl ltac:(repeat constructor))
    as (s & Hs & _ & Hlen & _ & Hat).
  exists s. split; [exact Hs|]. split; [exact Hlen|].
  split; [exact (Hat 0%nat _ _ eq_refl) | exact (Hat 1%nat _ _ eq_refl)].
Defined.

(** ** Retry-Fetch Client *)

(** C4.  One attempt of [fetch_nav_data] returns a payload exactly when
    the transport call succeeds with a non-error HTTP status, the body
    parses, the parsed payload's success indicator equals "success" and
    the payload has a data field.  Any violation makes the attempt raise,
    and a raised attempt is retried as long as the attempt number is below
    the cap of five; at the cap it ends the call. *)
Theorem fetch_attempt_accepts_exactly_valid_responses `{E : External}
    (a : NAVAnalyzer) (isin : cell) (t : trace) :
  (forall payload,
     fst (fetch_nav_data_body a isin t) = Ok payload <->
     accepted (requests_get t (nav_url isin) (headers a)) payload) /\
  ((forall payload, ~ accepted (requests_get t (nav_url isin) (headers a)) payload) ->
   exists e, fst (fetch_nav_data_body a isin t) = Raise e) /\
  (forall e n fuel,
     fst (fetch_nav_data_body a isin t) = Raise e ->
     ((n < max_attempts)%nat ->
      retrying (S fuel) (fetch_nav_data_body a isin) n t =
      retrying fuel (fetch_nav_data_body a isin) (S n)
        (t ++ [EvGet (nav_url isin) (headers a); EvSleep])) /\
     ((max_attempts <= n)%nat ->
      retrying (S fuel) (fetch_nav_data_body a isin) n t =
      Some (Raise (RetryError e), t ++ [EvGet (nav_url isin) (headers a)]))).
Proof.
  rewrite fetch_nav_data_body_eq. cbn [fst]. split; [|split].
  - intros payload. apply validate_response_ok_iff.
  - intros Hnone.
    destruct (validate_response isin (requests_get t (nav_url isin) (headers a)))
      as [payload|e] eqn:Hv; [|eauto].
    apply validate_response_ok_iff in Hv. now apply Hnone in Hv.
  - intros e n fuel He. cbn [retrying]. rewrite fetch_nav_data_body_eq, He.
    split; intros Hn.
    + apply stop_after_attempt_false in Hn. rewrite Hn.
      now rewrite <- app_assoc.
    + apply stop_after_attempt_true in Hn. now rewrite Hn.
Qed.

Lemma fetch_attempt_accepts_exactly_valid_responses_witness :
  fst (fetch_nav_data_body (E := Scenario.healthy)
         Scenario.analyzer Scenario.isin1 []) = Ok Scenario.payload.
Proof.
  apply (proj1 (fetch_attempt_accepts_exactly_valid_responses
                  (E := Scenario.healthy)
                  Scenario.analyzer Scenario.isin1 [])).
  exists 200, [("status", JStr "success");
               ("data", JArr [JArr [JNum (NInt 100); JNum (NFloat 9)];
                              JArr [JNum (NInt 200); JNum (NFloat 10)]])].
  split; [reflexivity|]. split; [lia|]. split; [reflexivity|].
  split; [reflexivity|]. eexists. reflexivity.
Defined.

(** C2.  [fetch_nav_data] makes at most five requests.  When the first
    four attempts raise and the fifth is accepted, the call returns the
    fifth attempt's payload, and a row whose remaining steps go well then
    becomes a result row.  When five attempts raise, the call fails with
    exactly five requests made: there is no sixth. *)
Theorem fetch_nav_data_at_most_five_attempts `{E : External}
    (a : NAVAnalyzer) (isin : cell) (t : trace) :
  (count_events is_get (snd (fetch_nav_data a isin t))
   <= count_events is_get t + max_attempts)%nat /\
  (forall payload,
     (forall k, (k < 4)%nat -> is_ok (attempt_outcome a isin t k) = false) ->
     attempt_outcome a isin t 4 = Ok payload ->
     fetch_nav_data a isin t =
     (Ok payload, attempt_trace a isin t 4 ++ [EvGet (nav_url isin) (headers a)])) /\
  (forall payload row t0 data nav_series stats name,
     t = t0 ++ [EvLogInfo (ProcessingIsin (py_str isin))] ->
     row !! "isin" = Some isin ->
     (forall k, (k < 4)%nat -> is_ok (attempt_outcome a isin t k) = false) ->
     attempt_outcome a isin t 4 = Ok payload ->
     json_getitem payload "data" = Ok data ->
     process_nav_json data = Ok nav_series ->
     generate_statistics nav_series = Ok stats ->
     row !! "security_name" = Some name ->
     qs_reports_html (attempt_trace a isin t 4 ++ [EvGet (nav_url isin) (headers a)])
       nav_series (py_str name +:+ " Analysis")
       (report_dir a +:+ "/" +:+ py_str isin +:+ "_report.html") = None ->
     fst (process_row a row t0) = Ok (dict_update row stats)) /\
  ((forall k, (k < 5)%nat -> is_ok (attempt_outcome a isin t k) = false) ->
   is_ok (fst (fetch_nav_data a isin t)) = false /\
   snd (fetch_nav_data a isin t) =
     attempt_trace a isin t 4 ++ [EvGet (nav_url isin) (headers a)] /\
   count_events is_get (snd (fetch_nav_data a isin t))
   = (count_events is_get t + 5)%nat).
Proof.
  assert (Hfifth : forall payload,
     (forall k, (k < 4)%nat -> is_ok (attempt_outcome a isin t k) = false) ->
     attempt_outcome a isin t 4 = Ok payload ->
     fetch_nav_data a isin t =
     (Ok payload, attempt_trace a isin t 4 ++ [EvGet (nav_url isin) (headers a)])).
  { intros payload Hfail Hfifth. unfold fetch_nav_data.
    change max_attempts with (4 + 1)%nat.
    rewrite (retrying_skip_failures a isin 4 1 1 t Hfail ltac:(unfold max_attempts; lia)).
    cbn [retrying Nat.add]. unfold attempt_outcome in Hfifth.
    rewrite fetch_nav_data_body_eq in *. cbn [fst] in Hfifth.
    now rewrite Hfifth. }
  split; [|split; [exact Hfifth|split]].
  - assert (H := retrying_enough_fuel a isin t max_attempts (le_n _)).
    destruct (fetch_nav_data a isin t) as [r t'].
    apply retrying_gets_bound in H; [|unfold max_attempts; lia].
    cbn [snd]. unfold max_attempts in *. lia.
  - intros payload row t0 data nav_series stats name -> Hisin Hfail Hok
           Hdata Hseries Hstats Hname Hreport.
    erewrite process_row_success; eauto.
  - intros Hfail.
    assert (H4 := Hfail 4%nat ltac:(lia)).
    unfold fetch_nav_data. change max_attempts with (4 + 1)%nat.
    rewrite (retrying_skip_failures a isin 4 1 1 t); [|intros; apply Hfail; lia|unfold max_attempts; lia].
    cbn [retrying Nat.add]. unfold attempt_outcome in H4.
    rewrite fetch_nav_data_body_eq in *. cbn [fst] in H4.
    destruct (validate_response _ _) as [x|e]; [discriminate|].
    destruct (stop_after_attempt max_attempts 5) eqn:Hstop;
      [|apply stop_after_attempt_false in Hstop; lia].
    cbn [is_ok fst snd]. split; [reflexivity|]. split; [reflexivity|].
    rewrite count_events_app, count_gets_attempt_trace, count_gets_request. lia.
Qed.

Lemma fetch_nav_data_at_most_five_attempts_witness :
  fetch_nav_data (E := Scenario.flaky) Scenario.analyzer Scenario.isin1
    [EvLogInfo (ProcessingIsin "INF109K01Z48")] =
  (Ok Scenario.payload,
   attempt_trace (E := Scenario.flaky) Scenario.analyzer Scenario.isin1
     [EvLogInfo (ProcessingIsin "INF109K01Z48")] 4 ++
   [EvGet (nav_url (E := Scenario.flaky) Scenario.isin1) (headers Scenario.analyzer)]) /\
  is_ok (fst (process_row (E := Scenario.flaky) Scenario.analyzer
                (Scenario.fund "INF109K01Z48" "Bluechip") [])) = true.
Proof.
  assert (Hfail : forall k, (k < 4)%nat ->
            is_ok (attempt_outcome (E := Scenario.flaky) Scenario.analyzer Scenario.isin1
                     [EvLogInfo (ProcessingIsin "INF109K01Z48")] k) = false).
  { first_four_fail. }
  destruct (fetch_nav_data_at_most_five_attempts
              (E := Scenario.flaky) Scenario.analyzer Scenario.isin1
              [EvLogInfo (ProcessingIsin "INF109K01Z48")])
    as (_ & Hfetch & Hrow & _).
  split.
  - apply Hfetch; [exact Hfail | reflexivity].
  - erewrite (Hrow Scenario.payload (Scenario.fund "INF109K01Z48" "Bluechip") []);
      [reflexivity | reflexivity | reflexivity | exact Hfail | reflexivity
      | reflexivity | reflexivity | reflexivity | reflexivity | reflexivity].
Defined.

(** C3, as amended.  When all five attempts raise, [fetch_nav_data] does
    not hand the last attempt's exception to its caller: it raises a
    [RetryError] that wraps it, after exactly five requests. *)
Theorem fetch_nav_data_exhausted_raises_retry_error `{E : External}
    (a : NAVAnalyzer) (isin : cell) (t : trace) (e : exn) :
  (forall k, (k < 4)%nat -> is_ok (attempt_outcome a isin t k) = false) ->
  attempt_outcome a isin t 4 = Raise e ->
  fetch_nav_data a isin t =
  (Raise (RetryError e), attempt_trace a isin t 4 ++ [EvGet (nav_url isin) (headers a)]).
Proof.
  intros Hfail Hlast. unfold fetch_nav_data.
  change max_attempts with (4 + 1)%nat.
  rewrite (retrying_skip_failures a isin 4 1 1 t Hfail ltac:(unfold max_attempts; lia)).
  cbn [retrying Nat.add]. unfold attempt_outcome in Hlast.
  rewrite fetch_nav_data_body_eq in *. cbn [fst] in Hlast. rewrite Hlast.
  destruct (stop_after_attempt max_attempts 5) eqn:Hstop; [reflexivity|].
  apply stop_after_attempt_false in Hstop. lia.
Qed.

Lemma fetch_nav_data_exhausted_raises_retry_error_witness :
  fetch_nav_data (E := Scenario.outage) Scenario.analyzer Scenario.isin1 [] =
  (Raise (RetryError (HTTPError 503)),
   attempt_trace (E := Scenario.outage) Scenario.analyzer Scenario.isin1 [] 4 ++
   [EvGet (nav_url (E := Scenario.outage) Scenario.isin1) (headers Scenario.analyzer)]).
Proof.
  apply (fetch_nav_data_exhausted_raises_retry_error
           (E := Scenario.outage) Scenario.analyzer Scenario.isin1 []).
  - first_four_fail.
  - reflexivity.
Defined.

(** C3 as stated fails: when upstream answers 503 five times, every
    attempt raises [HTTPError 503], and what the caller of
    [fetch_nav_data] gets is not that exception but a [RetryError]. *)
Lemma fetch_nav_data_exhausted_not_last_failure :
  map (attempt_outcome (E := Scenario.outage) Scenario.analyzer Scenario.isin1 [])
      [0; 1; 2; 3; 4]%nat
  = [Raise (HTTPError 503); Raise (HTTPError 503); Raise (HTTPError 503);
     Raise (HTTPError 503); Raise (HTTPError 503)] /\
  fst (fetch_nav_data (E := Scenario.outage) Scenario.analyzer Scenario.isin1 [])
  = Raise (RetryError (HTTPError 503)) /\
  fst (fetch_nav_data (E := Scenario.outage) Scenario.analyzer Scenario.isin1 [])
  <> Raise (HTTPError 503).
Proof.
  split; [reflexivity|]. split; [reflexivity|]. discriminate.
Qed.

(** ** Batch Orchestrator *)

(** C5.  On a roster that loads and whose rows have an [isin] column,
    whatever fails for whichever security, [analyze_securities] ends
    without raising.  Every roster row gets its [try] block run, in roster
    order, and the consolidated summary holds exactly the result rows of
    the blocks that ended well, in that order: a failed security adds no
    row and does not stop the rows after it, and there are at most as many
    result rows as roster rows. *)
Theorem analyze_securities_isolates_failures `{E : External}
    (a : NAVAnalyzer) (t : trace) (df : list Row) :
  read_csv (csv_path a) = Ok df ->
  Forall has_isin df ->
  exists t_loop path,
    analyze_securities a t =
    (Ok tt,
     t_loop ++ [EvToCsv path (successes (security_outcomes a df (snd (load_isin_data a t))));
                EvLogInfo AnalysisCompleted]) /\
    written_summaries t_loop = written_summaries t /\
    map fst (security_outcomes a df (snd (load_isin_data a t))) = df /\
    (length (successes (security_outcomes a df (snd (load_isin_data a t)))) <= length df)%nat /\
    (exists kept,
       sublist kept df /\
       Forall2 extends_record kept
         (successes (security_outcomes a df (snd (load_isin_data a t))))).
Proof.
  intros Hload Hrows.
  destruct (analyze_securities_run a t df Hload Hrows) as (t_loop & _ & Hnone & Hrun).
  exists t_loop. eexists. split; [exact Hrun|]. split; [exact Hnone|].
  split; [apply security_outcomes_rows|]. split.
  - rewrite <- (security_outcomes_rows a df (snd (load_isin_data a t))) at 2.
    rewrite length_map. apply successes_length.
  - apply successes_extend_records.
Qed.

Lemma analyze_securities_isolates_failures_witness :
  (exists t_loop path,
     analyze_securities (E := Scenario.second_fails) Scenario.analyzer [] =
     (Ok tt,
      t_loop ++
      [EvToCsv path
         (successes (security_outcomes (E := Scenario.second_fails) Scenario.analyzer
                       Scenario.roster3
                       (snd (load_isin_data (E := Scenario.second_fails)
                               Scenario.analyzer []))));
       EvLogInfo AnalysisCompleted])) /\
  map (fun o => is_ok (snd o))
      (security_outcomes (E := Scenario.second_fails) Scenario.analyzer Scenario.roster3
         (snd (load_isin_data (E := Scenario.second_fails) Scenario.analyzer [])))
  = [true; false; true] /\
  map (fun r => r !! "isin")
      (successes (security_outcomes (E := Scenario.second_fails) Scenario.analyzer
                    Scenario.roster3
                    (snd (load_isin_data (E := Scenario.second_fails) Scenario.analyzer []))))
  = [Some (CStr "INF109K01Z48"); Some (CStr "INF846K01EW2")].
Proof.
  split; [|split; vm_compute; reflexivity].
  destruct (analyze_securities_isolates_failures
              (E := Scenario.second_fails) Scenario.analyzer [] Scenario.roster3 eq_refl)
    as (t_loop & path & Hrun & _).
  - roster_has_isin.
  - exists t_loop, path. exact Hrun.
Defined.

(** C6.  On a roster that loads and whose rows have an [isin] column,
    [analyze_securities] writes the consolidated summary exactly once, and
    does so after the loop has gone through the whole roster, however many
    securities failed; when none succeeded the summary written is
    empty. *)
Theorem summary_written_once_after_loop `{E : External}
    (a : NAVAnalyzer) (t : trace) (df : list Row) :
  read_csv (csv_path a) = Ok df ->
  Forall has_isin df ->
  exists t_loop rows,
    process_rows a df [] (snd (load_isin_data a t)) = (Ok rows, t_loop) /\
    written_summaries t_loop = written_summaries t /\
    analyze_securities a t =
    (Ok tt,
     t_loop ++ [EvToCsv (report_dir a +:+ "/" +:+ today t_loop +:+ "_report.csv") rows;
                EvLogInfo AnalysisCompleted]) /\
    written_summaries (snd (analyze_securities a t)) =
    written_summaries t ++
    [(report_dir a +:+ "/" +:+ today t_loop +:+ "_report.csv", rows)] /\
    (Forall (fun o => is_ok (snd o) = false)
       (security_outcomes a df (snd (load_isin_data a t))) ->
     rows = []).
Proof.
  intros Hload Hrows.
  destruct (analyze_securities_run a t df Hload Hrows) as (t_loop & Hloop & Hnone & Hrun).
  exists t_loop. eexists. split; [|split; [exact Hnone|split; [exact Hrun|split]]].
  - exact Hloop.
  - rewrite Hrun. cbn [snd]. rewrite written_summaries_app, Hnone. reflexivity.
  - generalize (security_outcomes a df (snd (load_isin_data a t))).
    intros outcomes Hall. unfold successes.
    induction Hall as [|[row [rr|e]] rest Hhead _ IH]; [reflexivity|discriminate|exact IH].
Qed.

Lemma summary_written_once_after_loop_witness :
  written_summaries
    (snd (analyze_securities (E := Scenario.outage) Scenario.analyzer [])) =
  [("reports/2025-01-31_report.csv", [])].
Proof.
  destruct (summary_written_once_after_loop
              (E := Scenario.outage) Scenario.analyzer []
              [Scenario.fund "INF109K01Z48" "Bluechip"] eq_refl)
    as (t_loop & rows & _ & _ & _ & Hwritten & Hempty).
  - roster_has_isin.
  - rewrite Hwritten, Hempty; [reflexivity|].
    repeat constructor.
Defined.

(** C7, as amended.  On a roster that loads and whose rows have an [isin]
    column, the rows of the consolidated summary stand, in order, for
    some of the rows of the roster, and each of them holds every column of
    its roster row that is not named like one of the six metrics with the
    value the roster gave it, and a float under each of the six metric
    names.  (A roster column that is named like a metric is overwritten by
    the metric.) *)
Theorem summary_rows_carry_roster_fields `{E : External}
    (a : NAVAnalyzer) (t : trace) (df : list Row) :
  read_csv (csv_path a) = Ok df ->
  Forall has_isin df ->
  exists t_loop path rows kept,
    analyze_securities a t =
    (Ok tt, t_loop ++ [EvToCsv path rows; EvLogInfo AnalysisCompleted]) /\
    sublist kept df /\
    Forall2 extends_record kept rows.
Proof.
  intros Hload Hrows.
  destruct (analyze_securities_run a t df Hload Hrows) as (t_loop & _ & _ & Hrun).
  destruct (successes_extend_records a df (snd (load_isin_data a t)))
    as (kept & Hsub & Hall).
  exists t_loop. do 2 eexists. exists kept.
  split; [exact Hrun|]. split; [exact Hsub | exact Hall].
Qed.

Lemma summary_rows_carry_roster_fields_witness :
  exists t_loop path rows kept,
    analyze_securities (E := Scenario.second_fails) Scenario.analyzer [] =
    (Ok tt, t_loop ++ [EvToCsv path rows; EvLogInfo AnalysisCompleted]) /\
    sublist kept Scenario.roster3 /\
    Forall2 extends_record kept rows.
Proof.
  apply (summary_rows_carry_roster_fields
           (E := Scenario.second_fails) Scenario.analyzer [] Scenario.roster3 eq_refl).
  roster_has_isin.
Defined.

(** C7 as stated fails: a roster row with a column named [cagr] is
    processed successfully, and in its summary row that column holds the
    computed metric, not the value the roster gave it. *)
Lemma summary_row_overwrites_metric_named_column :
  Scenario.rated_fund !! "cagr" = Some (CStr "high") /\
  map (fun summary =>
         map (fun r : Row => (r !! "isin", r !! "cagr")) (snd summary))
      (written_summaries
         (snd (analyze_securities (E := Scenario.rated) Scenario.analyzer [])))
  = [[(Some (CStr "INF109K01Z48"), Some (CFloat 0.125))]].
Proof.
  split; vm_compute; reflexivity.
Qed.

(** C8.  When reading the roster raises, [load_isin_data] logs the
    failure and raises it again, [analyze_securities] and [main] end with
    that same exception, and nothing else happens: no request is made, no
    report is emitted and no summary is written. *)
Theorem load_failure_aborts_run `{E : External}
    (a : NAVAnalyzer) (t : trace) (e : exn) :
  read_csv (csv_path a) = Raise e ->
  load_isin_data a t =
    (Raise e, t ++ [EvReadCsv (csv_path a); EvLogError (ErrorLoadingCsv e)]) /\
  analyze_securities a t =
    (Raise e, t ++ [EvReadCsv (csv_path a); EvLogError (ErrorLoadingCsv e)]) /\
  (forall token,
     main (csv_path a) token t =
     (Raise e, t ++ [EvMkdir "reports"; EvReadCsv (csv_path a);
                     EvLogError (ErrorLoadingCsv e)])) /\
  count_events is_get (snd (analyze_securities a t)) = count_events is_get t /\
  count_events is_html_report (snd (analyze_securities a t))
  = count_events is_html_report t /\
  written_summaries (snd (analyze_securities a t)) = written_summaries t.
Proof.
  intros Hload.
  assert (Hl : forall a' t', csv_path a' = csv_path a ->
             load_isin_data a' t' =
             (Raise e, t' ++ [EvReadCsv (csv_path a); EvLogError (ErrorLoadingCsv e)])).
  { intros a' t' Hpath. unfold load_isin_data, bind, emit, raise.
    rewrite Hpath, Hload. now rewrite <- app_assoc. }
  assert (Hrun : forall a' t', csv_path a' = csv_path a ->
             analyze_securities a' t' =
             (Raise e, t' ++ [EvReadCsv (csv_path a); EvLogError (ErrorLoadingCsv e)])).
  { intros a' t' Hpath. unfold analyze_securities, bind at 1. now rewrite Hl. }
  split; [now apply Hl|]. split; [now apply Hrun|]. split.
  - intros token. unfold main, init, bind, emit, ret.
    rewrite Hrun by reflexivity. now rewrite <- app_assoc.
  - rewrite Hrun by reflexivity. cbn [snd].
    rewrite !count_events_app, written_summaries_app.
    repeat split; cbn; try lia. apply app_nil_r.
Qed.

Lemma load_failure_aborts_run_witness :
  main (E := Scenario.unreadable) "funds.csv" "token" [] =
  (Raise (OSError "No such file or directory"),
   [EvMkdir "reports"; EvReadCsv "funds.csv";
    EvLogError (ErrorLoadingCsv (OSError "No such file or directory"))]).
Proof.
  exact (proj1 (proj2 (proj2 (load_failure_aborts_run
                                (E := Scenario.unreadable) Scenario.analyzer []
                                (OSError "No such file or directory") eq_refl)))
           "token").
Defined.

(** ** Determinism *)

(** The run, spelled out by the way it can end. *)
Lemma analyze_securities_eq `{E : External} (a : NAVAnalyzer) (t : trace) :
  analyze_securities a t =
  match load_isin_data a t with
  | (Raise e, t0) => (Raise e, t0)
  | (Ok df, t0) =>
      match process_rows a df [] t0 with
      | (Raise e, t1) => (Raise e, t1)
      | (Ok results, t1) =>
          (Ok tt,
           t1 ++ [EvToCsv (report_dir a +:+ "/" +:+ today t1 +:+ "_report.csv") results;
                  EvLogInfo AnalysisCompleted])
      end
  end.
Proof.
  unfold analyze_securities, bind, history, emit.
  destruct (load_isin_data a t) as [[df|e] t0]; [|reflexivity].
  destruct (process_rows a df [] t0) as [[results|e] t1]; [|reflexivity].
  now rewrite <- app_assoc.
Qed.

Section ClockFacts.
Context (E : External) (clock : trace -> string).

(** The loop never reads the clock. *)
Lemma process_rows_with_clock a rows : forall results t,
  process_rows (E := with_clock E clock) a rows results t =
  process_rows (E := E) a rows results t.
Proof.
  induction rows as [|row rest IH]; intros results t; [reflexivity|].
  cbn [process_rows].
  change (process_row (E := with_clock E clock) a row t)
    with (process_row (E := E) a row t).
  destruct (process_row a row t) as [[result_row|e] t1]; [apply IH|].
  unfold bind.
  change (handle_failure (E := with_clock E clock) row e t1)
    with (handle_failure (E := E) row e t1).
  destruct (handle_failure row e t1) as [[[]|e'] t2]; [apply IH | reflexivity].
Qed.

Lemma load_isin_data_with_clock a t :
  load_isin_data (E := with_clock E clock) a t = load_isin_data (E := E) a t.
Proof. reflexivity. Qed.

(** A run under another clock: same outcome, and the same events, except
    for the path the summary is written to. *)
Lemma analyze_securities_with_clock a t :
  fst (analyze_securities (E := with_clock E clock) a t) =
  fst (analyze_securities (E := E) a t) /\
  map forget_summary_path (snd (analyze_securities (E := with_clock E clock) a t)) =
  map forget_summary_path (snd (analyze_securities (E := E) a t)).
Proof.
  rewrite !analyze_securities_eq, load_isin_data_with_clock.
  destruct (load_isin_data a t) as [[df|e] t0]; [|split; reflexivity].
  rewrite process_rows_with_clock.
  destruct (process_rows a df [] t0) as [[results|e] t1]; [|split; reflexivity].
  cbn [fst snd]. split; [reflexivity|].
  rewrite !map_app. reflexivity.
Qed.

End ClockFacts.

Lemma written_rows_forget_path (t : trace) :
  map snd (written_summaries (map forget_summary_path t)) = map snd (written_summaries t).
Proof.
  induction t as [|e t IH]; [reflexivity|].
  destruct e; cbn; now rewrite ?IH.
Qed.

(** C9.  Two runs of [analyze_securities] on the same roster, with the
    same upstream answers and the same library behaviour, that differ only
    in what the clock says, end the same way and write summaries with the
    same rows; the whole sequence of events is the same but for the path
    of the summary, which is derived from the date. *)
Theorem summary_rows_independent_of_run_date (E : External)
    (clock1 clock2 : trace -> string) (a : NAVAnalyzer) (t : trace) :
  fst (analyze_securities (E := with_clock E clock1) a t) =
  fst (analyze_securities (E := with_clock E clock2) a t) /\
  map snd (written_summaries (snd (analyze_securities (E := with_clock E clock1) a t))) =
  map snd (written_summaries (snd (analyze_securities (E := with_clock E clock2) a t))) /\
  map forget_summary_path (snd (analyze_securities (E := with_clock E clock1) a t)) =
  map forget_summary_path (snd (analyze_securities (E := with_clock E clock2) a t)).
Proof.
  destruct (analyze_securities_with_clock E clock1 a t) as [Hr1 Ht1].
  destruct (analyze_securities_with_clock E clock2 a t) as [Hr2 Ht2].
  split; [congruence|]. split; [|congruence].
  rewrite <- (written_rows_forget_path (snd (analyze_securities (E := with_clock E clock1) a t))).
  rewrite <- (written_rows_forget_path (snd (analyze_securities (E := with_clock E clock2) a t))).
  congruence.
Qed.

(** ** Rosters without an [isin] column *)

(** X1.  The hypothesis that roster rows have an [isin] column is needed:
    on a first row without it, the [try] block raises [KeyError], the
    handler raises [KeyError] again while it formats its message, and the
    run ends with that exception before any request, report or summary. *)
Theorem missing_isin_column_aborts_run `{E : External}
    (a : NAVAnalyzer) (t : trace) (row : Row) (rest : list Row) :
  read_csv (csv_path a) = Ok (row :: rest) ->
  row !! "isin" = None ->
  analyze_securities a t =
  (Raise (KeyError "isin"),
   t ++ [EvReadCsv (csv_path a);
         EvLogInfo (LoadedRecords (length (row :: rest)) (csv_path a))]).
Proof.
  intros Hload Hrow. rewrite analyze_securities_eq.
  unfold load_isin_data, bind, emit, ret. rewrite Hload.
  cbn [process_rows].
  unfold process_row, handle_failure, bind, lift, row_getitem. rewrite Hrow.
  now rewrite <- app_assoc.
Qed.

Lemma missing_isin_column_aborts_run_witness :
  analyze_securities
    (E := Scenario.scripted (Ok [{[ "security_name" := CStr "Bluechip" ]}])
            [Scenario.good] None)
    Scenario.analyzer [] =
  (Raise (KeyError "isin"),
   [EvReadCsv "funds.csv"; EvLogInfo (LoadedRecords 1 "funds.csv")]).
Proof.
  apply (missing_isin_column_aborts_run
           (E := Scenario.scripted (Ok [{[ "security_name" := CStr "Bluechip" ]}])
                   [Scenario.good] None)
           Scenario.analyzer [] {[ "security_name" := CStr "Bluechip" ]} []).
  - reflexivity.
  - reflexivity.
Defined.

(** * Further properties of the code *)

(** ** The shape of a fetch *)

Section FetchShape.
Context `{E : External}.

Lemma requests_app (t1 t2 : trace) : requests (t1 ++ t2) = requests t1 ++ requests t2.
Proof. apply omap_app. Qed.

Lemma error_logs_app (t1 t2 : trace) :
  error_logs (t1 ++ t2) = error_logs t1 ++ error_logs t2.
Proof. apply omap_app. Qed.

Lemma reports_app (t1 t2 : trace) : reports (t1 ++ t2) = reports t1 ++ reports t2.
Proof. apply omap_app. Qed.

Lemma requests_attempt_trace a isin t j :
  requests (attempt_trace a isin t j) =
  requests t ++ replicate j (nav_url isin, headers a).
Proof.
  revert t. induction j as [|j IH]; intros t.
  - rewrite attempt_trace_0. cbn. now rewrite app_nil_r.
  - rewrite attempt_trace_S, IH, requests_app, <- app_assoc. reflexivity.
Qed.

Lemma error_logs_attempt_trace a isin t j :
  error_logs (attempt_trace a isin t j) = error_logs t.
Proof.
  revert t. induction j as [|j IH]; intros t.
  - now rewrite attempt_trace_0.
  - rewrite attempt_trace_S, IH, error_logs_app. apply app_nil_r.
Qed.

Lemma reports_attempt_trace a isin t j :
  reports (attempt_trace a isin t j) = reports t.
Proof.
  revert t. induction j as [|j IH]; intros t.
  - now rewrite attempt_trace_0.
  - rewrite attempt_trace_S, IH, reports_app. apply app_nil_r.
Qed.

Lemma count_sleeps_attempt_trace a isin t j :
  count_events is_sleep (attempt_trace a isin t j) = (count_events is_sleep t + j)%nat.
Proof.
  revert t. induction j as [|j IH]; intros t.
  - rewrite attempt_trace_0. lia.
  - rewrite attempt_trace_S, IH, count_events_app.
    change (count_events is_sleep [EvGet (nav_url isin) (headers a); EvSleep]) with 1%nat.
    lia.
Qed.

(** What the retry loop did when it answers: [j] failed attempts, each
    followed by a wait, then one more attempt whose outcome decides. *)
Lemma retrying_shape a isin fuel : forall n t r t',
  (n <= max_attempts)%nat ->
  retrying fuel (fetch_nav_data_body a isin) n t = Some (r, t') ->
  exists j,
    (n + j <= max_attempts)%nat /\
    t' = attempt_trace a isin t j ++ [EvGet (nav_url isin) (headers a)] /\
    (forall k, (k < j)%nat -> is_ok (attempt_outcome a isin t k) = false) /\
    ((exists payload, attempt_outcome a isin t j = Ok payload /\ r = Ok payload) \/
     (exists e, attempt_outcome a isin t j = Raise e /\ r = Raise (RetryError e) /\
                (n + j = max_attempts)%nat)).
Proof.
  induction fuel as [|fuel IH]; intros n t r t' Hn H; [discriminate|].
  cbn [retrying] in H. rewrite fetch_nav_data_body_eq in H.
  destruct (validate_response isin (requests_get t (nav_url isin) (headers a)))
    as [payload|e] eqn:Hv.
  - injection H as <- <-. exists 0%nat.
    unfold attempt_outcome. rewrite attempt_trace_0, fetch_nav_data_body_eq. cbn [fst].
    split; [lia|]. split; [reflexivity|]. split; [intros k Hk; lia|].
    left. eauto.
  - destruct (stop_after_attempt max_attempts n) eqn:Hstop.
    + injection H as <- <-. exists 0%nat.
      apply stop_after_attempt_true in Hstop.
      unfold attempt_outcome. rewrite attempt_trace_0, fetch_nav_data_body_eq. cbn [fst].
      split; [lia|]. split; [reflexivity|]. split; [intros k Hk; lia|].
      right. exists e. unfold max_attempts in *. repeat split; [exact Hv | lia].
    + apply stop_after_attempt_false in Hstop.
      rewrite <- app_assoc in H. cbn [app] in H.
      apply IH in H; [|unfold max_attempts; lia].
      destruct H as (j & Hj & -> & Hfail & Hlast).
      exists (S j). split; [lia|]. split; [now rewrite attempt_trace_S|]. split.
      * intros [|k] Hk.
        -- unfold attempt_outcome.
           rewrite attempt_trace_0, fetch_nav_data_body_eq. cbn [fst]. now rewrite Hv.
        -- rewrite attempt_outcome_S. apply Hfail. lia.
      * rewrite attempt_outcome_S.
        destruct Hlast as [(payload & Ho & ->)|(e' & Ho & -> & Hcap)].
        -- left. eauto.
        -- right. exists e'. repeat split; [exact Ho | lia].
Qed.

Lemma fetch_nav_data_shape a isin t :
  exists j,
    (j < max_attempts)%nat /\
    snd (fetch_nav_data a isin t) =
      attempt_trace a isin t j ++ [EvGet (nav_url isin) (headers a)] /\
    (forall k, (k < j)%nat -> is_ok (attempt_outcome a isin t k) = false) /\
    ((exists payload, attempt_outcome a isin t j = Ok payload /\
                      fst (fetch_nav_data a isin t) = Ok payload) \/
     (exists e, attempt_outcome a isin t j = Raise e /\
                fst (fetch_nav_data a isin t) = Raise (RetryError e) /\
                S j = max_attempts)).
Proof.
  assert (H := retrying_enough_fuel a isin t max_attempts (le_n _)).
  destruct (fetch_nav_data a isin t) as [r t'].
  apply retrying_shape in H; [|unfold max_attempts; lia].
  destruct H as (j & Hj & -> & Hfail & Hlast).
  exists j. cbn [fst snd]. split; [lia|]. split; [reflexivity|]. split; [exact Hfail|].
  destruct Hlast as [(payload & Ho & ->)|(e & Ho & -> & Hcap)]; [left; eauto|].
  right. exists e. repeat split; [exact Ho | lia].
Qed.

End FetchShape.

(** X2.  A call of [fetch_nav_data] ends in one of two ways only: it
    returns a payload that passed validation (an object whose status is
    "success" and whose ["data"] entry can be read, so the indexing in
    [analyze_securities] cannot raise), or it raises a [RetryError] after
    exactly five requests.  No other exception leaves it. *)
Theorem fetch_nav_data_validated_or_retry_error `{E : External}
    (a : NAVAnalyzer) (isin : cell) (t : trace) :
  (exists fields data,
     fst (fetch_nav_data a isin t) = Ok (JObj fields) /\
     dict_get fields "status" = Some (JStr "success") /\
     json_getitem (JObj fields) "data" = Ok data) \/
  (exists e,
     fst (fetch_nav_data a isin t) = Raise (RetryError e) /\
     requests (snd (fetch_nav_data a isin t)) =
     requests t ++ replicate max_attempts (nav_url isin, headers a)).
Proof.
  destruct (fetch_nav_data_shape a isin t)
    as (j & Hj & Ht & _ & [(payload & Ho & Hr)|(e & _ & Hr & Hcap)]).
  - left. unfold attempt_outcome in Ho. rewrite fetch_nav_data_body_eq in Ho.
    cbn [fst] in Ho. apply validate_response_ok_iff in Ho
      as (status_code & fields & _ & _ & -> & Hstatus & data & Hdata).
    exists fields, data. split; [exact Hr|]. split; [exact Hstatus|].
    cbn [json_getitem]. now rewrite Hdata.
  - right. exists e. split; [exact Hr|].
    rewrite Ht, requests_app, requests_attempt_trace, <- app_assoc, <- Hcap.
    f_equal. symmetry. apply replicate_S_end.
Qed.

(** X3.  [fetch_nav_data] returns the first accepted attempt: when [j]
    attempts raise, with [j] below five, and the next one is accepted, the
    call returns that payload after [j + 1] requests and [j] waits, and
    asks upstream nothing more. *)
Theorem fetch_nav_data_returns_first_accepted `{E : External}
    (a : NAVAnalyzer) (isin : cell) (t : trace) (j : nat) (payload : json) :
  (j < max_attempts)%nat ->
  (forall k, (k < j)%nat -> is_ok (attempt_outcome a isin t k) = false) ->
  attempt_outcome a isin t j = Ok payload ->
  fetch_nav_data a isin t =
    (Ok payload, attempt_trace a isin t j ++ [EvGet (nav_url isin) (headers a)]) /\
  requests (snd (fetch_nav_data a isin t)) =
    requests t ++ replicate (S j) (nav_url isin, headers a) /\
  count_events is_sleep (snd (fetch_nav_data a isin t)) =
    (count_events is_sleep t + j)%nat.
Proof.
  intros Hj Hfail Hok.
  assert (Hfetch : fetch_nav_data a isin t =
            (Ok payload, attempt_trace a isin t j ++ [EvGet (nav_url isin) (headers a)])).
  { unfold fetch_nav_data.
    replace max_attempts with (j + S (max_attempts - S j))%nat at 1 by lia.
    rewrite (retrying_skip_failures a isin j _ 1 t Hfail ltac:(lia)).
    cbn [retrying]. unfold attempt_outcome in Hok.
    rewrite fetch_nav_data_body_eq in *. cbn [fst] in Hok. now rewrite Hok. }
  rewrite Hfetch. cbn [snd]. split; [reflexivity|]. split.
  - rewrite requests_app, requests_attempt_trace, <- app_assoc.
    f_equal. symmetry. apply replicate_S_end.
  - rewrite count_events_app, count_sleeps_attempt_trace.
    change (count_events is_sleep [EvGet (nav_url isin) (headers a)]) with 0%nat. lia.
Qed.

Lemma fetch_nav_data_returns_first_accepted_witness :
  fetch_nav_data
    (E := Scenario.scripted (Ok []) [Scenario.unavailable; Scenario.unavailable;
                                    Scenario.good; Scenario.unavailable] None)
    Scenario.analyzer Scenario.isin1 [] =
  (Ok Scenario.payload,
   attempt_trace
     (E := Scenario.scripted (Ok []) [Scenario.unavailable; Scenario.unavailable;
                                     Scenario.good; Scenario.unavailable] None)
     Scenario.analyzer Scenario.isin1 [] 2 ++
   [EvGet (nav_url (E := Scenario.offline) Scenario.isin1) (headers Scenario.analyzer)]).
Proof.
  apply (fetch_nav_data_returns_first_accepted
           (E := Scenario.scripted (Ok []) [Scenario.unavailable; Scenario.unavailable;
                                           Scenario.good; Scenario.unavailable] None)
           Scenario.analyzer Scenario.isin1 [] 2 Scenario.payload).
  - unfold max_attempts. lia.
  - intros k Hk. do 2 (destruct k as [|k]; [reflexivity|]). lia.
  - reflexivity.
Defined.


(** ** Statistics *)



(** ** The shape of one row's processing *)

Section RowShape.
Context `{E : External}.

Lemma process_row_no_isin a row t :
  row !! "isin" = None -> process_row a row t = (Raise (KeyError "isin"), t).
Proof.
  intros Hrow. unfold process_row, bind, lift, row_getitem. now rewrite Hrow.
Qed.

(** With an ISIN, the [try] block logs, fetches, and then either stops
    before the report call or ends with it. *)
Lemma process_row_shape a row t isin :
  row !! "isin" = Some isin ->
  exists n fetched,
    (1 <= n <= max_attempts)%nat /\
    requests fetched = requests t ++ replicate n (nav_url isin, headers a) /\
    error_logs fetched = error_logs t /\
    reports fetched = reports t /\
    ((is_ok (fst (process_row a row t)) = false /\
      snd (process_row a row t) = fetched /\
      (row !! "security_name" = None ->
       forall payload data nav_series stats,
         fst (fetch_nav_data a isin (t ++ [EvLogInfo (ProcessingIsin (py_str isin))]))
           = Ok payload ->
         json_getitem payload "data" = Ok data ->
         process_nav_json data = Ok nav_series ->
         generate_statistics nav_series = Ok stats ->
         fst (process_row a row t) = Raise (KeyError "security_name"))) \/
     (exists s stats name,
        generate_statistics s = Ok stats /\
        row !! "security_name" = Some name /\
        snd (process_row a row t) =
          fetched ++ [EvHtmlReport s (report_title name) (report_path a isin)] /\
        fst (process_row a row t) =
          match qs_reports_html fetched s (report_title name) (report_path a isin) with
          | None => Ok (dict_update row stats)
          | Some e => Raise e
          end)).
Proof.
  intros Hisin.
  destruct (fetch_nav_data_shape a isin (t ++ [EvLogInfo (ProcessingIsin (py_str isin))]))
    as (j & Hj & Ht & _).
  exists (S j).
  exists (snd (fetch_nav_data a isin (t ++ [EvLogInfo (ProcessingIsin (py_str isin))]))).
  split; [lia|]. split; [|split; [|split]].
  - rewrite Ht, requests_app, requests_attempt_trace, requests_app, <- !app_assoc.
    cbn [app]. f_equal. symmetry. apply replicate_S_end.
  - rewrite Ht, error_logs_app, error_logs_attempt_trace, error_logs_app.
    cbn. now rewrite !app_nil_r.
  - rewrite Ht, reports_app, reports_attempt_trace, reports_app.
    cbn. now rewrite !app_nil_r.
  - clear Ht Hj j.
    unfold process_row, generate_html_report, bind, lift, emit, ret, row_getitem.
    rewrite Hisin.
    destruct (fetch_nav_data a isin _) as [[nav_data|e] t1]; cbn [fst snd];
      [|left; repeat split; discriminate].
    destruct (json_getitem nav_data "data") as [data|e] eqn:Hdata; cbn [fst snd];
      [|left; repeat split; intros _ ? ? ? ? [= <-]; congruence].
    destruct (process_nav_json data) as [nav_series|e] eqn:Hseries; cbn [fst snd];
      [|left; repeat split; intros _ ? ? ? ? [= <-]; congruence].
    destruct (generate_statistics nav_series) as [stats|e] eqn:Hstats; cbn [fst snd];
      [|left; repeat split; intros _ ? ? ? ? [= <-]; congruence].
    destruct (row !! "security_name") as [name|]; cbn [fst snd];
      [|left; repeat split].
    right. exists nav_series, stats, name.
    split; [exact Hstats|]. split; [reflexivity|].
    unfold report_title, report_path.
    destruct (qs_reports_html _ _ _ _); split; reflexivity.
Qed.

End RowShape.

(** ** What a whole run requests, logs and reports *)

Section RunShape.
Context `{E : External}.

Lemma load_isin_data_ok a t df :
  read_csv (csv_path a) = Ok df ->
  load_isin_data a t =
  (Ok df, t ++ [EvReadCsv (csv_path a); EvLogInfo (LoadedRecords (length df) (csv_path a))]).
Proof.
  intros Hload. unfold load_isin_data, bind, emit, ret. rewrite Hload.
  now rewrite <- app_assoc.
Qed.

(** The loop, row by row: the requests, error records and report calls
    it adds are those of its rows, in roster order. *)
Lemma process_rows_projections a rows : forall results t,
  Forall has_isin rows ->
  exists groups rgroups,
    Forall2 (requests_of_row a) rows groups /\
    requests (snd (process_rows a rows results t)) = requests t ++ concat groups /\
    error_logs (snd (process_rows a rows results t)) =
      error_logs t ++ omap failure_record (security_outcomes a rows t) /\
    Forall2 (reports_of_row a) (security_outcomes a rows t) rgroups /\
    reports (snd (process_rows a rows results t)) = reports t ++ concat rgroups.
Proof.
  induction rows as [|row rest IH]; intros results t Hrows.
  - exists [], []. cbn. rewrite !app_nil_r. repeat split; constructor.
  - apply Forall_cons in Hrows as [[isin Hisin] Hrest].
    destruct (process_row_shape a row t isin Hisin)
      as (n & fetched & Hn & Hreq & Herr & Hrep & Hcase).
    cbn [process_rows security_outcomes].
    destruct (process_row a row t) as [r t1] eqn:Hrow. cbn [fst snd] in *.
    assert (Hgroup : requests_of_row a row (replicate n (nav_url isin, headers a))).
    { exists isin, n. auto. }
    destruct r as [result_row|e].
    + (* the block ended well: a report was called *)
      destruct Hcase as [(Hok & _)|(s & stats & name & Hstats & Hname & Ht1 & Hr)];
        [discriminate|].
      destruct (IH (results ++ [result_row]) t1 Hrest)
        as (groups & rgroups & Hg & Hreqs & Herrs & Hrg & Hreps).
      exists (replicate n (nav_url isin, headers a) :: groups),
             ([(s, report_title name, report_path a isin)] :: rgroups).
      split; [now constructor|]. split; [|split; [|split]].
      * rewrite Hreqs, Ht1, requests_app, Hreq. cbn. now rewrite app_nil_r, <- app_assoc.
      * rewrite Herrs, Ht1, error_logs_app, Herr. cbn. now rewrite app_nil_r.
      * constructor; [|exact Hrg]. unfold reports_of_row. cbn [fst snd].
        split; [reflexivity|]. split; [cbn; lia|].
        intros s' title output Hin. apply list_elem_of_singleton in Hin.
        injection Hin as -> -> ->. exists isin, name, stats. auto.
      * rewrite Hreps, Ht1, reports_app, Hrep. cbn. now rewrite <- app_assoc.
    + (* the block raised: the handler logs the failure *)
      assert (Hh : handle_failure row e t1 =
                   (Ok tt, t1 ++ [EvLogError (ErrorProcessingIsin (py_str isin) e)])).
      { unfold handle_failure, bind, lift, emit, row_getitem. now rewrite Hisin. }
      assert (Hloop : (handle_failure row e ;;; process_rows a rest results) t1 =
                      process_rows a rest results
                        (t1 ++ [EvLogError (ErrorProcessingIsin (py_str isin) e)])).
      { unfold bind. now rewrite Hh. }
      rewrite Hloop. unfold after_row. rewrite Hh. cbn [fst snd].
      set (t2 := t1 ++ [EvLogError (ErrorProcessingIsin (py_str isin) e)]).
      destruct (IH results t2 Hrest)
        as (groups & rgroups & Hg & Hreqs & Herrs & Hrg & Hreps).
      assert (Hfail : failure_record (row, Raise e)
                      = Some (ErrorProcessingIsin (py_str isin) e)).
      { unfold failure_record. cbn [fst snd]. now rewrite Hisin. }
      destruct Hcase as [(_ & Ht1 & _)|(s & stats & name & Hstats & Hname & Ht1 & Hr)].
      * exists (replicate n (nav_url isin, headers a) :: groups), ([] :: rgroups).
        split; [now constructor|]. split; [|split; [|split]].
        -- rewrite Hreqs. unfold t2. rewrite requests_app, Ht1, Hreq.
           cbn. now rewrite app_nil_r, <- app_assoc.
        -- rewrite Herrs. unfold t2. rewrite error_logs_app, Ht1, Herr.
           cbn [omap list_omap]. rewrite Hfail. cbn. now rewrite <- app_assoc.
        -- constructor; [|exact Hrg]. unfold reports_of_row. cbn [fst snd].
           split; [discriminate|]. split; [cbn; lia|].
           intros s' title output Hin. now apply elem_of_nil in Hin.
        -- rewrite Hreps. unfold t2. rewrite reports_app, Ht1, Hrep.
           cbn. now rewrite app_nil_r.
      * exists (replicate n (nav_url isin, headers a) :: groups),
               ([(s, report_title name, report_path a isin)] :: rgroups).
        split; [now constructor|]. split; [|split; [|split]].
        -- rewrite Hreqs. unfold t2. rewrite !requests_app, Ht1, requests_app, Hreq.
           cbn. now rewrite !app_nil_r, <- app_assoc.
        -- rewrite Herrs. unfold t2. rewrite error_logs_app, Ht1, error_logs_app, Herr.
           cbn [omap list_omap]. rewrite Hfail. cbn. now rewrite app_nil_r, <- app_assoc.
        -- constructor; [|exact Hrg]. unfold reports_of_row. cbn [fst snd].
           split; [discriminate|]. split; [cbn; lia|].
           intros s' title output Hin. apply list_elem_of_singleton in Hin.
           injection Hin as -> -> ->. exists isin, name, stats. auto.
        -- rewrite Hreps. unfold t2. rewrite reports_app, Ht1, reports_app, Hrep.
           cbn. now rewrite app_nil_r, <- !app_assoc.
Qed.

End RunShape.

Section RunProjections.
Context `{E : External}.

Lemma requests_of_rows_length a rows groups :
  Forall2 (requests_of_row a) rows groups ->
  (length rows <= length (concat groups) <= max_attempts * length rows)%nat.
Proof.
  induction 1 as [|row group rows groups (isin & n & _ & Hn & ->) _ IH]; [cbn; lia|].
  cbn [concat length]. rewrite length_app, length_replicate.
  unfold max_attempts in *. lia.
Qed.


Lemma outcomes_accounting (outcomes : list (Row * result Row)) :
  Forall has_isin (map fst outcomes) ->
  (length (successes outcomes) + length (omap failure_record outcomes)
   = length outcomes)%nat.
Proof.
  unfold successes.
  induction outcomes as [|[row r] rest IH]; intros Hrows; [reflexivity|].
  cbn [map fst] in Hrows. apply Forall_cons in Hrows as [[isin Hisin] Hrest].
  specialize (IH Hrest). cbn [omap list_omap fst snd length].
  unfold failure_record at 1. cbn [fst snd]. rewrite Hisin.
  destruct r as [result_row|e]; cbn [ok_value length]; lia.
Qed.

(** The projections of a whole run are those of its loop. *)
Lemma analyze_securities_projections a t df :
  read_csv (csv_path a) = Ok df ->
  Forall has_isin df ->
  exists groups rgroups path,
    Forall2 (requests_of_row a) df groups /\
    requests (snd (analyze_securities a t)) = requests t ++ concat groups /\
    error_logs (snd (analyze_securities a t)) =
      error_logs t ++
      omap failure_record (security_outcomes a df (snd (load_isin_data a t))) /\
    Forall2 (reports_of_row a)
      (security_outcomes a df (snd (load_isin_data a t))) rgroups /\
    reports (snd (analyze_securities a t)) = reports t ++ concat rgroups /\
    written_summaries (snd (analyze_securities a t)) =
      written_summaries t ++
      [(path, successes (security_outcomes a df (snd (load_isin_data a t))))].
Proof.
  intros Hload Hrows.
  destruct (analyze_securities_run a t df Hload Hrows) as (t_loop & Hloop & Hnone & Hrun).
  destruct (process_rows_projections a df [] (snd (load_isin_data a t)) Hrows)
    as (groups & rgroups & Hg & Hreq & Herr & Hrg & Hrep).
  rewrite Hloop in Hreq, Herr, Hrep. cbn [snd] in Hreq, Herr, Hrep.
  exists groups, rgroups. eexists.
  rewrite Hrun. cbn [snd].
  rewrite requests_app, error_logs_app, reports_app, written_summaries_app,
    Hreq, Herr, Hrep, Hnone.
  assert (H0 : requests (snd (load_isin_data a t)) = requests t /\
               error_logs (snd (load_isin_data a t)) = error_logs t /\
               reports (snd (load_isin_data a t)) = reports t).
  { rewrite (load_isin_data_ok a t df Hload). cbn [snd].
    rewrite requests_app, error_logs_app, reports_app. cbn.
    now rewrite !app_nil_r. }
  destruct H0 as (-> & -> & ->).
  cbn [requests error_logs reports omap list_omap request_of error_log_of report_of
       written_summaries].
  rewrite !app_nil_r. repeat split; assumption || reflexivity.
Qed.

End RunProjections.

(** X5.  On a roster that loads and whose rows have an [isin] column, the
    requests of a run follow the roster: for each row in turn, between one
    and five requests to the URL of that row's ISIN, all with the headers
    of the analyzer, and nothing else.  A run therefore makes at least as
    many requests as the roster has rows and at most five times as
    many. *)
Theorem run_requests_follow_roster `{E : External}
    (a : NAVAnalyzer) (t : trace) (df : list Row) :
  read_csv (csv_path a) = Ok df ->
  Forall has_isin df ->
  exists groups,
    Forall2 (requests_of_row a) df groups /\
    requests (snd (analyze_securities a t)) = requests t ++ concat groups /\
    (length df <= length (concat groups) <= max_attempts * length df)%nat.
Proof.
  intros Hload Hrows.
  destruct (analyze_securities_projections a t df Hload Hrows)
    as (groups & _ & _ & Hg & Hreq & _).
  exists groups. split; [exact Hg|]. split; [exact Hreq|].
  now apply requests_of_rows_length with a.
Qed.

Lemma run_requests_follow_roster_witness :
  exists groups,
    Forall2 (requests_of_row (E := Scenario.second_fails) Scenario.analyzer)
      Scenario.roster3 groups /\
    requests (snd (analyze_securities (E := Scenario.second_fails) Scenario.analyzer []))
    = [] ++ concat groups /\
    (length Scenario.roster3 <= length (concat groups)
     <= max_attempts * length Scenario.roster3)%nat.
Proof.
  apply (run_requests_follow_roster
           (E := Scenario.second_fails) Scenario.analyzer [] Scenario.roster3 eq_refl).
  roster_has_isin.
Defined.

(** X6.  On such a roster the error records a run logs are exactly one
    per security whose [try] block raised, in roster order, each naming
    the ISIN and carrying the exception that was raised; a security that
    succeeded logs none.  Result rows and error records together account
    for every roster row. *)
Theorem run_logs_one_error_per_failed_security `{E : External}
    (a : NAVAnalyzer) (t : trace) (df : list Row) :
  read_csv (csv_path a) = Ok df ->
  Forall has_isin df ->
  error_logs (snd (analyze_securities a t)) =
    error_logs t ++
    omap failure_record (security_outcomes a df (snd (load_isin_data a t))) /\
  (length (successes (security_outcomes a df (snd (load_isin_data a t)))) +
   length (omap failure_record (security_outcomes a df (snd (load_isin_data a t))))
   = length df)%nat.
Proof.
  intros Hload Hrows.
  destruct (analyze_securities_projections a t df Hload Hrows)
    as (_ & _ & _ & _ & _ & Herr & _).
  split; [exact Herr|].
  pose proof (f_equal length (security_outcomes_rows a df (snd (load_isin_data a t))))
    as Hlen.
  rewrite length_map in Hlen.
  rewrite outcomes_accounting; [exact Hlen|].
  now rewrite security_outcomes_rows.
Qed.

Lemma run_logs_one_error_per_failed_security_witness :
  error_logs (snd (analyze_securities (E := Scenario.second_fails) Scenario.analyzer []))
  = [ErrorProcessingIsin "INF200K01RJ1" (RetryError (HTTPError 503))].
Proof.
  rewrite (proj1 (run_logs_one_error_per_failed_security
                    (E := Scenario.second_fails) Scenario.analyzer [] Scenario.roster3
                    eq_refl ltac:(roster_has_isin))).
  vm_compute. reflexivity.
Defined.



(** ** Rows without a [security_name] column *)

(** X9.  For a roster row that has an ISIN but no [security_name] column
    the [try] block can never end well: the requests are made and the
    statistics computed as usual, but building the report title raises
    [KeyError] before [qs.reports.html] is called, so no report is called
    and no result row is made. *)
Theorem process_row_without_security_name `{E : External}
    (a : NAVAnalyzer) (row : Row) (t : trace) (isin : cell) :
  row !! "isin" = Some isin ->
  row !! "security_name" = None ->
  is_ok (fst (process_row a row t)) = false /\
  reports (snd (process_row a row t)) = reports t /\
  (forall payload data nav_series stats,
     fst (fetch_nav_data a isin (t ++ [EvLogInfo (ProcessingIsin (py_str isin))]))
       = Ok payload ->
     json_getitem payload "data" = Ok data ->
     process_nav_json data = Ok nav_series ->
     generate_statistics nav_series = Ok stats ->
     fst (process_row a row t) = Raise (KeyError "security_name")).
Proof.
  intros Hisin Hname.
  destruct (process_row_shape a row t isin Hisin)
    as (n & fetched & _ & _ & _ & Hrep & [(Hfail & Ht & Herr)|(s & stats & name & _ & Hn & _)]).
  - split; [exact Hfail|]. split; [now rewrite Ht|]. now apply Herr.
  - congruence.
Qed.

Lemma process_row_without_security_name_witness :
  fst (process_row (E := Scenario.healthy) Scenario.analyzer
         {[ "isin" := Scenario.isin1 ]} [])
  = Raise (KeyError "security_name").
Proof.
  destruct (process_row_without_security_name
              (E := Scenario.healthy) Scenario.analyzer
              {[ "isin" := Scenario.isin1 ]} [] Scenario.isin1)
    as (_ & _ & Herr); [reflexivity | reflexivity |].
  apply (Herr Scenario.payload
           (JArr [JArr [JNum (NInt 100); JNum (NFloat 9)];
                  JArr [JNum (NInt 200); JNum (NFloat 10)]])
           [(Datetime 100, NFloat 9); (Datetime 200, NFloat 10)]
           (list_to_map
              [("cagr", CFloat 0.125); ("volatility", CFloat 0.25);
               ("sharpe", CFloat (1 - risk_free_rate));
               ("sortino", CFloat (2 - risk_free_rate));
               ("max_drawdown", CFloat (-0.5));
               ("value_at_risk", CFloat (-0.0625))] : Row));
    reflexivity.
Defined.

Lemma outcomes_without_security_name `{E : External}
    (a : NAVAnalyzer) (outcomes : list (Row * result Row))
    (rgroups : list (list (Series * string * string))) :
  Forall2 (reports_of_row a) outcomes rgroups ->
  Forall (fun row : Row => row !! "security_name" = None) (map fst outcomes) ->
  successes outcomes = [] /\ concat rgroups = [].
Proof.
  unfold successes.
  induction 1 as [|[row r] group outcomes rgroups (Hok & _ & Hin) _ IH];
    intros Hnone; [split; reflexivity|].
  cbn [map fst] in Hnone. apply Forall_cons in Hnone as [Hrow Hrest].
  destruct (IH Hrest) as [Hs Hc]. cbn [fst snd] in *.
  assert (Hgroup : group = []).
  { destruct group as [|[[s title] output] group]; [reflexivity|].
    destruct (Hin s title output) as (isin & name & stats & _ & Hname & _);
      [left | congruence]. }
  subst group. cbn [concat app omap list_omap snd]. rewrite Hs, Hc.
  destruct r as [result_row|e]; [|split; reflexivity].
  specialize (Hok eq_refl). discriminate.
Qed.

(** X10.  On a roster that loads, whose rows have an [isin] column but no
    [security_name] column, a run still makes the requests for every row,
    calls no report at all, logs one error per row and writes an empty
    summary. *)
Theorem roster_without_security_name_gives_empty_summary `{E : External}
    (a : NAVAnalyzer) (t : trace) (df : list Row) :
  read_csv (csv_path a) = Ok df ->
  Forall has_isin df ->
  Forall (fun row : Row => row !! "security_name" = None) df ->
  fst (analyze_securities a t) = Ok tt /\
  reports (snd (analyze_securities a t)) = reports t /\
  (exists path,
     written_summaries (snd (analyze_securities a t)) =
     written_summaries t ++ [(path, [])]) /\
  (length (error_logs (snd (analyze_securities a t)))
   = length (error_logs t) + length df)%nat /\
  (length (requests t) + length df
   <= length (requests (snd (analyze_securities a t))))%nat.
Proof.
  intros Hload Hrows Hnone.
  destruct (analyze_securities_projections a t df Hload Hrows)
    as (groups & rgroups & path & Hg & Hreq & Herr & Hrg & Hrep & Hsum).
  destruct (outcomes_without_security_name a _ _ Hrg) as [Hs Hc].
  { now rewrite security_outcomes_rows. }
  destruct (analyze_securities_run a t df Hload Hrows) as (t_loop & _ & _ & Hrun).
  split; [now rewrite Hrun|]. split; [|split; [|split]].
  - rewrite Hrep, Hc. apply app_nil_r.
  - exists path. now rewrite Hsum, Hs.
  - rewrite Herr, length_app.
    pose proof (outcomes_accounting
                  (security_outcomes a df (snd (load_isin_data a t)))) as Hacc.
    rewrite security_outcomes_rows, Hs in Hacc.
    specialize (Hacc Hrows). cbn [length] in Hacc.
    pose proof (f_equal length (security_outcomes_rows a df (snd (load_isin_data a t))))
      as Hlen.
    rewrite length_map in Hlen. lia.
  - rewrite Hreq, length_app.
    pose proof (requests_of_rows_length a df groups Hg). lia.
Qed.

Lemma roster_without_security_name_gives_empty_summary_witness :
  written_summaries
    (snd (analyze_securities
            (E := Scenario.scripted (Ok [{[ "isin" := Scenario.isin1 ]}])
                    [Scenario.good] None)
            Scenario.analyzer []))
  = [("reports/2025-01-31_report.csv", [])] /\
  reports
    (snd (analyze_securities
            (E := Scenario.scripted (Ok [{[ "isin" := Scenario.isin1 ]}])
                    [Scenario.good] None)
            Scenario.analyzer []))
  = reports [].
Proof.
  split; [vm_compute; reflexivity|].
  apply (roster_without_security_name_gives_empty_summary
           (E := Scenario.scripted (Ok [{[ "isin" := Scenario.isin1 ]}])
                   [Scenario.good] None)
           Scenario.analyzer [] [{[ "isin" := Scenario.isin1 ]}] eq_refl).
  - roster_has_isin.
  - repeat constructor.
Defined.

(** ** What can leave a run *)



(** ** Where an ISIN is fetched from and reported to *)





(** ** Where the token goes *)

Lemma process_rows_requests `{E : External} (a : NAVAnalyzer) (rows : list Row) :
  forall results t,
    exists new,
      requests (snd (process_rows a rows results t)) = requests t ++ new /\
      Forall (request_for_roster a rows) new.
Proof.
  induction rows as [|row rest IH]; intros results t.
  - exists []. cbn. now rewrite app_nil_r.
  - assert (Hweaken : forall new, Forall (request_for_roster a rest) new ->
                                  Forall (request_for_roster a (row :: rest)) new).
    { intros new Hall. eapply Forall_impl; [exact Hall|].
      intros rq (Hh & row' & isin' & Hin & Hrow' & Hurl).
      split; [exact Hh|]. exists row', isin'. split; [now right | auto]. }
    cbn [process_rows].
    destruct (row !! "isin") as [isin|] eqn:Hisin.
    + destruct (process_row_shape a row t isin Hisin)
        as (n & fetched & _ & Hreq & _ & _ & Hcase).
      assert (Hown : Forall (request_for_roster a (row :: rest))
                       (replicate n (nav_url isin, headers a))).
      { apply Forall_replicate. split; [reflexivity|].
        exists row, isin. split; [left | auto]. }
      assert (Ht1 : requests (snd (process_row a row t)) =
                    requests t ++ replicate n (nav_url isin, headers a)).
      { destruct Hcase as [(_ & -> & _)|(s & stats & name & _ & _ & -> & _)];
          [exact Hreq|].
        rewrite requests_app, Hreq. cbn. now rewrite app_nil_r. }
      destruct (process_row a row t) as [[result_row|e] t1]; cbn [snd] in Ht1.
      * destruct (IH (results ++ [result_row]) t1) as (new & Hnew & Hall).
        exists (replicate n (nav_url isin, headers a) ++ new).
        split; [now rewrite Hnew, Ht1, <- app_assoc|].
        apply Forall_app. split; [exact Hown | now apply Hweaken].
      * assert (Hloop : (handle_failure row e ;;; process_rows a rest results) t1 =
                        process_rows a rest results
                          (t1 ++ [EvLogError (ErrorProcessingIsin (py_str isin) e)])).
        { unfold bind, handle_failure, lift, emit, row_getitem. now rewrite Hisin. }
        rewrite Hloop.
        destruct (IH results (t1 ++ [EvLogError (ErrorProcessingIsin (py_str isin) e)]))
          as (new & Hnew & Hall).
        exists (replicate n (nav_url isin, headers a) ++ new).
        split.
        -- rewrite Hnew, requests_app, Ht1. cbn. now rewrite app_nil_r, <- app_assoc.
        -- apply Forall_app. split; [exact Hown | now apply Hweaken].
    + rewrite (process_row_no_isin a row t Hisin).
      unfold bind, handle_failure, lift, row_getitem. rewrite Hisin. cbn [snd].
      exists []. split; [now rewrite app_nil_r | constructor].
Qed.

(** X13.  Whatever the roster and whatever upstream answers, every
    request a run of [main] makes goes to the URL of the ISIN of some row
    of the roster and carries the headers built from the token given on
    the command line, the token itself under [X-CSRFToken]; when the
    roster cannot be read no request is made. *)
Theorem main_requests_only_roster_urls_with_token `{E : External}
    (path token : string) (t : trace) :
  exists new,
    requests (snd (main path token t)) = requests t ++ new /\
    Forall (fun rq =>
              snd rq = make_headers token /\
              ("X-CSRFToken", token) ∈ snd rq /\
              exists df row isin,
                read_csv path = Ok df /\ row ∈ df /\
                row !! "isin" = Some isin /\ fst rq = nav_url isin) new.
Proof.
  set (a := {| csv_path := path; csrf_token := token;
               headers := make_headers token; report_dir := "reports" |}).
  assert (Hmain : main path token t = analyze_securities a (t ++ [EvMkdir "reports"]))
    by reflexivity.
  rewrite Hmain, analyze_securities_eq.
  unfold load_isin_data, bind, emit, ret, raise. cbn [csv_path a].
  destruct (read_csv path) as [df|e] eqn:Hload.
  - set (t0 := ((t ++ [EvMkdir "reports"]) ++ [EvReadCsv path]) ++
                [EvLogInfo (LoadedRecords (length df) path)]).
    assert (Ht0 : requests t0 = requests t).
    { unfold t0. rewrite !requests_app. cbn. now rewrite !app_nil_r. }
    destruct (process_rows_requests a df [] t0) as (new & Hnew & Hall).
    rewrite Ht0 in Hnew.
    exists new. split.
    + destruct (process_rows a df [] t0) as [[results|e] t1]; cbn [snd] in *.
      * rewrite requests_app, Hnew. cbn. now rewrite app_nil_r.
      * exact Hnew.
    + eapply Forall_impl; [exact Hall|].
      intros rq (Hh & row & isin & Hin & Hrow & Hurl).
      split; [exact Hh|]. split.
      * rewrite Hh. cbn. unfold make_headers. set_solver.
      * exists df, row, isin. auto.
  - exists []. cbn [snd]. split; [|constructor].
    rewrite !requests_app. cbn. now rewrite !app_nil_r.
Qed.

(** ** When a security makes it into the summary *)


